(** * CoordinateSpace: the transform pipeline and frame loop of [main.cpp]

    The program is one [main] that drives GLFW, GLAD, OpenGL, stb_image and
    GLM.  The definitions come first:

    - [Ieee]: single and double precision numbers, with the cast and the
      product [main] itself performs on the readings of the clock, rounded
      as IEEE 754 rounds them.
    - [Glm]: the GLM functions [main] calls, on 4x4 column-major matrices.
      The entries of a matrix are real numbers and the trigonometric
      functions are the exact ones; the angle of the spin, which comes from
      the clock, is a single-precision number up to the call of [rotate].
    - [Host]: what the outside world answers (does the window open, does the
      loader succeed, is there an image, what happens at every tick of the
      loop), the calls that leave [main.cpp], recorded in order, and the
      library functions as operations of a state monad over the GL/GLFW
      state.
    - [Program]: [main], [processInput] and [framebuffer_size_callback],
      statement by statement.
    - [Observe]: how a recorded run is read (what was printed, uploaded,
      drawn, released), and the hosts the examples run against.

    - [Survey]: further readings of a run and of the matrices.

    Then the facts: [GlmFacts] about the matrices, [SpinFacts] about the
    angle of the spin in single precision, [RunFacts] about the loop and
    the whole of [main], [Collect] about what a run contains,
    [Claims], one theorem for each claim of the specification, and [Extra],
    further properties of [main], [processInput] and
    [framebuffer_size_callback]. *)

From Stdlib Require Import Reals Lra List ZArith String Bool Lia.
From Stdlib Require Import Floats.SpecFloat Machin.
Import ListNotations.

Set Implicit Arguments.

(** ** Single and double precision

    [glfwGetTime] returns a [double].  Line 455 casts it to [float] and
    multiplies it by [50.0f]; line 491 passes it where [glUniform1f] takes
    a [float].  Both conversions and the product round to nearest, ties to
    even; they are computed here on sign, mantissa and exponent, by the
    rounding of the standard library's [SpecFloat]. *)

Module Ieee.

Local Open Scope Z_scope.

(** [float]: 24 bits of precision, exponents below 128. *)
Definition float32 : Set := spec_float.

(** [double]: 53 bits of precision, exponents below 1024. *)
Definition double : Set := spec_float.

(** The cast [(float)d], also the conversion of a [double] argument to a
    [float] parameter. *)
Definition to_float32 (d : double) : float32 :=
  match d with
  | S754_finite s m e => binary_round 24 128 s m e
  | _ => d
  end.

(** [*] on two [float]s. *)
Definition fmul32 (a b : float32) : float32 := SFmul 24 128 a b.

(** An integer literal such as [50.0f], as a [float] and as a [double]. *)
Definition float32_of_Z (n : Z) : float32 := binary_normalize 24 128 n 0 false.
Definition double_of_Z (n : Z) : double := binary_normalize 53 1024 n 0 false.

(** Zeros and finite numbers, as opposed to infinities and NaN. *)
Definition is_finite (x : spec_float) : bool :=
  match x with
  | S754_zero _ | S754_finite _ _ _ => true
  | S754_infinity _ | S754_nan => false
  end.

(** The real number a zero or a finite number stands for.  An infinity or a
    NaN stands for none; what is said below of the real value of a number
    is said of finite ones. *)
Definition real_of (x : spec_float) : R :=
  match x with
  | S754_finite s m e =>
      match e with
      | Zneg p => (IZR (if s then Zneg m else Zpos m) / IZR (Z.pow_pos 2 p))%R
      | _ => IZR ((if s then Zneg m else Zpos m) * 2 ^ e)
      end
  | _ => 0%R
  end.

End Ieee.

(** ** GLM

    lib/glm is not among the source files; this module stands for the part
    of it [main] uses. *)

Module Glm.

Import Ieee.
Local Open Scope R_scope.

(** An entry of a vector or a matrix, and a constant of the source such as
    [-55.0f]: a real number. *)
Abbreviation float := R (only parsing).

Record vec3 := Vec3 { x3 : float; y3 : float; z3 : float }.
Record vec4 := Vec4 { x4 : float; y4 : float; z4 : float; w4 : float }.

(** [glm::mat4] is column-major: [m[i]] is the i-th column. *)
Record mat4 := Mat4 { col0 : vec4; col1 : vec4; col2 : vec4; col3 : vec4 }.

Definition vadd (a b : vec4) : vec4 :=
  Vec4 (x4 a + x4 b) (y4 a + y4 b) (z4 a + z4 b) (w4 a + w4 b).

Definition vscale (a : vec4) (k : float) : vec4 :=
  Vec4 (x4 a * k) (y4 a * k) (z4 a * k) (w4 a * k).

(** Modelled from the spec: the constructor [glm::mat4(s)] (lib/glm is not
    among the source files); [glm::mat4(1.0f)] is the "identity" of the
    specification, [s] on the diagonal. *)
Definition mat4_diag (s : float) : mat4 :=
  Mat4 (Vec4 s 0 0 0) (Vec4 0 s 0 0) (Vec4 0 0 s 0) (Vec4 0 0 0 s).

Definition identity : mat4 := mat4_diag 1.

(** Modelled from the spec: [glm::radians] (lib/glm is not among the source
    files).  Degrees to radians. *)
Definition radians (degrees : float) : float := degrees * (PI / 180).

(** Modelled from the spec: [glm::radians] on a [float] that is not a
    constant (lib/glm is not among the source files): one single-precision
    product with 0.01745329251994329576923690768489 rounded to single
    precision, which is 9370165 * 2^-29.  The rounding of this product is
    kept because it grows with the angle: beyond 2^23 radians the result is
    a whole number of radians. *)
Definition degrees_to_radians : float32 := S754_finite false 9370165 (-29).

Definition radians32 (degrees : float32) : float32 :=
  fmul32 degrees degrees_to_radians.

(** Modelled from the spec: [glm::dot] and [glm::inversesqrt] (lib/glm is
    not among the source files), the two functions [glm::normalize] is made
    of. *)
Definition dot3 (a b : vec3) : float := x3 a * x3 b + y3 a * y3 b + z3 a * z3 b.

Definition inversesqrt (x : float) : float := 1 / sqrt x.

(** Modelled from the spec: [glm::normalize] (lib/glm is not among the source
    files). *)
Definition normalize (v : vec3) : vec3 :=
  let k := inversesqrt (dot3 v v) in Vec3 (x3 v * k) (y3 v * k) (z3 v * k).

(** Modelled from the spec: [glm::rotate(m, angle, v)] (lib/glm is not among
    the source files): "Rotate(m, angle, axis)", the axis-angle rotation
    matrix built column by column and multiplied on the right of [m]. *)
Definition rotate (m : mat4) (angle : float) (v : vec3) : mat4 :=
  let a := angle in
  let c := cos a in
  let s := sin a in
  let axis := normalize v in
  let temp := Vec3 ((1 - c) * x3 axis) ((1 - c) * y3 axis) ((1 - c) * z3 axis) in
  let r00 := c + x3 temp * x3 axis in
  let r01 := x3 temp * y3 axis + s * z3 axis in
  let r02 := x3 temp * z3 axis - s * y3 axis in
  let r10 := y3 temp * x3 axis - s * z3 axis in
  let r11 := c + y3 temp * y3 axis in
  let r12 := y3 temp * z3 axis + s * x3 axis in
  let r20 := z3 temp * x3 axis + s * y3 axis in
  let r21 := z3 temp * y3 axis - s * x3 axis in
  let r22 := c + z3 temp * z3 axis in
  Mat4
    (vadd (vadd (vscale (col0 m) r00) (vscale (col1 m) r01)) (vscale (col2 m) r02))
    (vadd (vadd (vscale (col0 m) r10) (vscale (col1 m) r11)) (vscale (col2 m) r12))
    (vadd (vadd (vscale (col0 m) r20) (vscale (col1 m) r21)) (vscale (col2 m) r22))
    (col3 m).

(** Modelled from the spec: [glm::translate(m, v)] (lib/glm is not among the
    source files): "Translate(m, v)"; only the last column changes. *)
Definition translate (m : mat4) (v : vec3) : mat4 :=
  Mat4 (col0 m) (col1 m) (col2 m)
    (vadd (vadd (vadd (vscale (col0 m) (x3 v)) (vscale (col1 m) (y3 v)))
                (vscale (col2 m) (z3 v)))
          (col3 m)).

(** Modelled from the spec: [glm::perspective(fovy, aspect, zNear, zFar)]
    (lib/glm is not among the source files): "Perspective(fovY, aspect, near,
    far)", the right-handed projection onto the depth range [-1, 1]. *)
Definition perspective (fovy aspect zNear zFar : float) : mat4 :=
  let tanHalfFovy := tan (fovy / 2) in
  Mat4
    (Vec4 (1 / (aspect * tanHalfFovy)) 0 0 0)
    (Vec4 0 (1 / tanHalfFovy) 0 0)
    (Vec4 0 0 (- (zFar + zNear) / (zFar - zNear)) (- 1))
    (Vec4 0 0 (- (2 * zFar * zNear) / (zFar - zNear)) 0).

(** The aspect term of a perspective matrix: the vertical scale over the
    horizontal one. *)
Definition aspect_term (p : mat4) : float := y4 (col1 p) / x4 (col0 p).

(** Rotation by [theta] radians about Z, written out. *)
Definition rotation_z (theta : float) : mat4 :=
  Mat4 (Vec4 (cos theta) (sin theta) 0 0)
       (Vec4 (- sin theta) (cos theta) 0 0)
       (Vec4 0 0 1 0)
       (Vec4 0 0 0 1).

(** Rotation by [theta] radians about X, written out. *)
Definition rotation_x (theta : float) : mat4 :=
  Mat4 (Vec4 1 0 0 0)
       (Vec4 0 (cos theta) (sin theta) 0)
       (Vec4 0 (- sin theta) (cos theta) 0)
       (Vec4 0 0 0 1).

(** The half turn about Z: x and y change sign. *)
Definition half_turn_z : mat4 :=
  Mat4 (Vec4 (-1) 0 0 0) (Vec4 0 (-1) 0 0) (Vec4 0 0 1 0) (Vec4 0 0 0 1).

(** Equality up to [eps] in every entry. *)
Definition vec4_close (eps : float) (a b : vec4) : Prop :=
  Rabs (x4 a - x4 b) <= eps /\ Rabs (y4 a - y4 b) <= eps /\
  Rabs (z4 a - z4 b) <= eps /\ Rabs (w4 a - w4 b) <= eps.

Definition mat4_close (eps : float) (a b : mat4) : Prop :=
  vec4_close eps (col0 a) (col0 b) /\ vec4_close eps (col1 a) (col1 b) /\
  vec4_close eps (col2 a) (col2 b) /\ vec4_close eps (col3 a) (col3 b).

End Glm.

(** ** The host: GLFW, GLAD, OpenGL, stb_image and the shader class *)

Module Host.

Import Ieee Glm.
Local Open Scope string_scope.
Local Open Scope list_scope.
Local Open Scope Z_scope.

Definition GLuint := Z.

(** The enumerants [main] passes; their numeric values play no role. *)
Inductive Sym :=
| GLFW_CONTEXT_VERSION_MAJOR | GLFW_CONTEXT_VERSION_MINOR
| GLFW_OPENGL_PROFILE | GLFW_OPENGL_CORE_PROFILE | GLFW_OPENGL_FORWARD_COMPAT
| GLFW_KEY_ESCAPE | GLFW_PRESS | GLFW_RELEASE
| GL_TRUE | GL_FALSE
| GL_ARRAY_BUFFER | GL_ELEMENT_ARRAY_BUFFER | GL_STATIC_DRAW
| GL_FLOAT | GL_UNSIGNED_INT | GL_UNSIGNED_BYTE
| GL_TEXTURE_2D | GL_TEXTURE_WRAP_S | GL_TEXTURE_WRAP_T | GL_REPEAT
| GL_TEXTURE_MIN_FILTER | GL_TEXTURE_MAG_FILTER | GL_LINEAR | GL_RGB
| GL_COLOR_BUFFER_BIT | GL_TRIANGLES.

Inductive HintValue := IntVal (n : Z) | SymVal (s : Sym).

(** What [stbi_load] hands back when it succeeds. *)
Record Image := {
  img_width : Z;
  img_height : Z;
  img_channels : Z;
  img_pixels : list Byte.byte
}.

Inductive BufferData :=
| Floats (l : list float)
| UInts (l : list Z).

(** Objects that live on the GPU side. *)
Inductive Resource :=
| VertexArray (name : GLuint)
| Buffer (name : GLuint)
| Texture (name : GLuint)
| ShaderProgram (name : GLuint).

(** A uniform location is kept symbolic: the slot of [u_name] in
    [u_program]. *)
Record Uniform := { u_program : GLuint; u_name : string }.

(** What GLFW delivers from inside [glfwPollEvents]. *)
Inductive HostEvent :=
| FramebufferResized (width height : Z)
| CloseRequested.

(** What the host answers during one iteration of the render loop:
    whether Escape is down when [glfwGetKey] asks, what [glfwGetTime]
    returns at its successive calls, and the events waiting at
    [glfwPollEvents]. *)
Record Tick := {
  key_escape : bool;
  clock : list double;
  polled : list HostEvent
}.

(** Everything the outside world decides. *)
Record Env := {
  apple : bool;                         (* built with __APPLE__ defined *)
  window_opens : bool;                  (* glfwCreateWindow is not NULL *)
  loader_succeeds : bool;               (* gladLoadGLLoader is nonzero *)
  program_name : GLuint;                (* ourShader.ID *)
  active_after_compile : option GLuint; (* program in use once Shader() returns *)
  image_file : option Image;            (* stbi_load("container.jpg") *)
  ticks : list Tick
}.

(** Every call that leaves [main.cpp], with its arguments.  Uniform uploads
    also carry the program in use when they are issued, and a draw carries
    the indices it reads from the element buffer of the bound vertex array.
    [Call_cerr], [Call_glDeleteTextures] and [Call_glDeleteProgram] belong to
    the vocabulary although [main.cpp] never issues them. *)
Inductive Call :=
| Call_glfwInit
| Call_glfwWindowHint (hint : Sym) (value : HintValue)
| Call_glfwCreateWindow (width height : Z) (title : string)
| Call_cout (line : string)
| Call_cerr (line : string)
| Call_glfwTerminate
| Call_glfwMakeContextCurrent
| Call_glfwSetFramebufferSizeCallback
| Call_gladLoadGLLoader
| Call_Shader (vertexPath fragmentPath : string)
| Call_Shader_use (program : GLuint)
| Call_glGenVertexArrays (name : GLuint)
| Call_glGenBuffers (name : GLuint)
| Call_glGenTextures (name : GLuint)
| Call_glBindVertexArray (name : GLuint)
| Call_glBindBuffer (target : Sym) (name : GLuint)
| Call_glBufferData (target : Sym) (size : Z) (data : BufferData) (usage : Sym)
| Call_glVertexAttribPointer (index size : Z) (type normalized : Sym)
    (stride offset : Z)
| Call_glEnableVertexAttribArray (index : Z)
| Call_glBindTexture (target : Sym) (name : GLuint)
| Call_glTexParameteri (target pname param : Sym)
| Call_stbi_load (path : string)
| Call_glTexImage2D (target : Sym) (level : Z) (internalformat : Sym)
    (width height border : Z) (format type : Sym) (pixels : list Byte.byte)
| Call_glGenerateMipmap (target : Sym)
| Call_stbi_image_free
| Call_glfwWindowShouldClose
| Call_glfwGetKey (key : Sym)
| Call_glfwSetWindowShouldClose (value : bool)
| Call_glClearColor (r g b a : float)
| Call_glClear (mask : Sym)
| Call_glfwGetTime
| Call_glGetUniformLocation (program : GLuint) (name : string)
| Call_glUniformMatrix4fv (location : Uniform) (count : Z) (transpose : Sym)
    (value : mat4) (in_use : option GLuint)
| Call_glUniform1f (location : Uniform) (v : float32) (in_use : option GLuint)
| Call_glDrawElements (mode : Sym) (count : Z) (type : Sym) (offset : Z)
    (fetched : list Z)
| Call_glfwSwapBuffers
| Call_glfwPollEvents
| Call_glViewport (x y width height : Z)
| Call_glDeleteVertexArrays (name : GLuint)
| Call_glDeleteBuffers (name : GLuint)
| Call_glDeleteTextures (name : GLuint)
| Call_glDeleteProgram (name : GLuint).

(** The part of the GL context [main] touches. *)
Record GL := {
  vertex_array_binding : GLuint;
  array_buffer_binding : GLuint;
  element_bindings : list (GLuint * GLuint);   (* vertex array -> element buffer *)
  buffers : list (GLuint * BufferData);
  texture_binding : GLuint;
  textures : list (GLuint * Image);
  program : option GLuint;
  objects : list Resource     (* generated and not deleted by a call so far *)
}.

Record World := {
  host : Env;
  now : Tick;                 (* the host's answers for the current iteration *)
  calls : list Call;          (* oldest first *)
  glfw_live : bool;           (* initialised and not terminated *)
  resize_callback : bool;     (* framebuffer_size_callback is registered *)
  should_close : bool;        (* the window's close flag *)
  framebuffer : Z * Z;        (* the size of the last resize event; (0, 0) before *)
  gl : GL
}.

Definition no_tick : Tick := {| key_escape := false; clock := []; polled := [] |}.

Definition no_gl : GL :=
  {| vertex_array_binding := 0; array_buffer_binding := 0;
     element_bindings := []; buffers := []; texture_binding := 0;
     textures := []; program := None; objects := [] |}.

(** The world before [main] starts. *)
Definition boot (e : Env) : World :=
  {| host := e; now := no_tick; calls := []; glfw_live := false;
     resize_callback := false; should_close := false; framebuffer := (0, 0);
     gl := no_gl |}.

(** *** The monad *)

Definition M (A : Type) : Type := World -> A * World.

Definition ret {A} (a : A) : M A := fun w => (a, w).

Definition bind {A B} (m : M A) (k : A -> M B) : M B :=
  fun w => let (a, w') := m w in k a w'.

Declare Scope prog_scope.
Delimit Scope prog_scope with prog.
Notation "x <- m ;; k" := (bind m (fun x => k))
  (at level 61, m at next level, right associativity) : prog_scope.
Notation "m ;; k" := (bind m (fun _ => k))
  (at level 61, right associativity) : prog_scope.
Local Open Scope prog_scope.

Definition gets {A} (f : World -> A) : M A := fun w => (f w, w).

Definition modify (f : World -> World) : M unit := fun w => (tt, f w).

Definition when (b : bool) (m : M unit) : M unit := if b then m else ret tt.

Definition with_calls (f : list Call -> list Call) (w : World) : World :=
  {| host := host w; now := now w; calls := f (calls w);
     glfw_live := glfw_live w; resize_callback := resize_callback w;
     should_close := should_close w; framebuffer := framebuffer w;
     gl := gl w |}.

Definition with_now (tk : Tick) (w : World) : World :=
  {| host := host w; now := tk; calls := calls w;
     glfw_live := glfw_live w; resize_callback := resize_callback w;
     should_close := should_close w; framebuffer := framebuffer w;
     gl := gl w |}.

Definition with_glfw_live (b : bool) (w : World) : World :=
  {| host := host w; now := now w; calls := calls w;
     glfw_live := b; resize_callback := resize_callback w;
     should_close := should_close w; framebuffer := framebuffer w;
     gl := gl w |}.

Definition with_resize_callback (b : bool) (w : World) : World :=
  {| host := host w; now := now w; calls := calls w;
     glfw_live := glfw_live w; resize_callback := b;
     should_close := should_close w; framebuffer := framebuffer w;
     gl := gl w |}.

Definition with_should_close (b : bool) (w : World) : World :=
  {| host := host w; now := now w; calls := calls w;
     glfw_live := glfw_live w; resize_callback := resize_callback w;
     should_close := b; framebuffer := framebuffer w;
     gl := gl w |}.

Definition with_framebuffer (d : Z * Z) (w : World) : World :=
  {| host := host w; now := now w; calls := calls w;
     glfw_live := glfw_live w; resize_callback := resize_callback w;
     should_close := should_close w; framebuffer := d;
     gl := gl w |}.

Definition with_gl (f : GL -> GL) (w : World) : World :=
  {| host := host w; now := now w; calls := calls w;
     glfw_live := glfw_live w; resize_callback := resize_callback w;
     should_close := should_close w; framebuffer := framebuffer w;
     gl := f (gl w) |}.

(** Record one call. *)
Definition emit (c : Call) : M unit := modify (with_calls (fun l => l ++ [c])).

(** *** GL state updates *)

Definition lookup {A} (k : GLuint) (l : list (GLuint * A)) : option A :=
  match find (fun p => fst p =? k) l with
  | Some p => Some (snd p)
  | None => None
  end.

Definition is_vertex_array (r : Resource) : bool :=
  match r with VertexArray _ => true | _ => false end.
Definition is_buffer (r : Resource) : bool :=
  match r with Buffer _ => true | _ => false end.
Definition is_texture (r : Resource) : bool :=
  match r with Texture _ => true | _ => false end.

Definition same_resource (a b : Resource) : bool :=
  match a, b with
  | VertexArray n, VertexArray m => n =? m
  | Buffer n, Buffer m => n =? m
  | Texture n, Texture m => n =? m
  | ShaderProgram n, ShaderProgram m => n =? m
  | _, _ => false
  end.

(** The name a [glGen*] call returns: one more than the number of objects
    of that kind around. *)
Definition fresh (kind : Resource -> bool) (g : GL) : GLuint :=
  Z.of_nat (List.length (filter kind (objects g))) + 1.

Definition add_object (r : Resource) (g : GL) : GL :=
  {| vertex_array_binding := vertex_array_binding g;
     array_buffer_binding := array_buffer_binding g;
     element_bindings := element_bindings g; buffers := buffers g;
     texture_binding := texture_binding g; textures := textures g;
     program := program g; objects := objects g ++ [r] |}.

Definition without {A} (k : GLuint) (l : list (GLuint * A)) : list (GLuint * A) :=
  filter (fun p => negb (fst p =? k)) l.

(** What a [glDelete*] call does to [r].  A vertex array goes with its
    element binding, and the binding reverts to 0 if it was bound.  A buffer
    loses its data store and is unbound where the context binds it: at the
    array binding, and as the element buffer of the bound vertex array.  A
    texture loses its image and is unbound.  A program is only marked; the
    one in use stays in use. *)
Definition drop_object (r : Resource) (g : GL) : GL :=
  let remaining := filter (fun o => negb (same_resource r o)) (objects g) in
  match r with
  | VertexArray n =>
      {| vertex_array_binding :=
           if vertex_array_binding g =? n then 0 else vertex_array_binding g;
         array_buffer_binding := array_buffer_binding g;
         element_bindings := without n (element_bindings g);
         buffers := buffers g;
         texture_binding := texture_binding g; textures := textures g;
         program := program g; objects := remaining |}
  | Buffer n =>
      {| vertex_array_binding := vertex_array_binding g;
         array_buffer_binding :=
           if array_buffer_binding g =? n then 0 else array_buffer_binding g;
         element_bindings :=
           match lookup (vertex_array_binding g) (element_bindings g) with
           | Some ebo =>
               if ebo =? n
               then without (vertex_array_binding g) (element_bindings g)
               else element_bindings g
           | None => element_bindings g
           end;
         buffers := without n (buffers g);
         texture_binding := texture_binding g; textures := textures g;
         program := program g; objects := remaining |}
  | Texture n =>
      {| vertex_array_binding := vertex_array_binding g;
         array_buffer_binding := array_buffer_binding g;
         element_bindings := element_bindings g; buffers := buffers g;
         texture_binding := if texture_binding g =? n then 0 else texture_binding g;
         textures := without n (textures g);
         program := program g; objects := remaining |}
  | ShaderProgram _ =>
      {| vertex_array_binding := vertex_array_binding g;
         array_buffer_binding := array_buffer_binding g;
         element_bindings := element_bindings g; buffers := buffers g;
         texture_binding := texture_binding g; textures := textures g;
         program := program g; objects := remaining |}
  end.

Definition bind_vertex_array (n : GLuint) (g : GL) : GL :=
  {| vertex_array_binding := n;
     array_buffer_binding := array_buffer_binding g;
     element_bindings := element_bindings g; buffers := buffers g;
     texture_binding := texture_binding g; textures := textures g;
     program := program g; objects := objects g |}.

(** The element-array binding belongs to the bound vertex array; the array
    binding is context state. *)
Definition bind_buffer (target : Sym) (n : GLuint) (g : GL) : GL :=
  match target with
  | GL_ELEMENT_ARRAY_BUFFER =>
      {| vertex_array_binding := vertex_array_binding g;
         array_buffer_binding := array_buffer_binding g;
         element_bindings := (vertex_array_binding g, n) :: element_bindings g;
         buffers := buffers g;
         texture_binding := texture_binding g; textures := textures g;
         program := program g; objects := objects g |}
  | _ =>
      {| vertex_array_binding := vertex_array_binding g;
         array_buffer_binding := n;
         element_bindings := element_bindings g; buffers := buffers g;
         texture_binding := texture_binding g; textures := textures g;
         program := program g; objects := objects g |}
  end.

Definition bound_buffer (target : Sym) (g : GL) : option GLuint :=
  match target with
  | GL_ELEMENT_ARRAY_BUFFER => lookup (vertex_array_binding g) (element_bindings g)
  | _ => Some (array_buffer_binding g)
  end.

Definition store_buffer (target : Sym) (d : BufferData) (g : GL) : GL :=
  match bound_buffer target g with
  | Some n =>
      {| vertex_array_binding := vertex_array_binding g;
         array_buffer_binding := array_buffer_binding g;
         element_bindings := element_bindings g;
         buffers := (n, d) :: buffers g;
         texture_binding := texture_binding g; textures := textures g;
         program := program g; objects := objects g |}
  | None => g
  end.

Definition bind_texture (n : GLuint) (g : GL) : GL :=
  {| vertex_array_binding := vertex_array_binding g;
     array_buffer_binding := array_buffer_binding g;
     element_bindings := element_bindings g; buffers := buffers g;
     texture_binding := n; textures := textures g;
     program := program g; objects := objects g |}.

Definition store_texture (i : Image) (g : GL) : GL :=
  {| vertex_array_binding := vertex_array_binding g;
     array_buffer_binding := array_buffer_binding g;
     element_bindings := element_bindings g; buffers := buffers g;
     texture_binding := texture_binding g;
     textures := (texture_binding g, i) :: textures g;
     program := program g; objects := objects g |}.

Definition use_program (p : option GLuint) (g : GL) : GL :=
  {| vertex_array_binding := vertex_array_binding g;
     array_buffer_binding := array_buffer_binding g;
     element_bindings := element_bindings g; buffers := buffers g;
     texture_binding := texture_binding g; textures := textures g;
     program := p; objects := objects g |}.

(** The indices an indexed draw reads: [count] unsigned ints starting
    [offset] bytes into the element buffer of the bound vertex array. *)
Definition fetch_indices (g : GL) (count offset : Z) : list Z :=
  match lookup (vertex_array_binding g) (element_bindings g) with
  | Some ebo =>
      match lookup ebo (buffers g) with
      | Some (UInts l) => firstn (Z.to_nat count) (skipn (Z.to_nat (offset / 4)) l)
      | _ => []
      end
  | None => []
  end.

(** *** iostream *)

(** [std::cout << line << std::endl]. *)
Definition cout (line : string) : M unit := emit (Call_cout line).

(** *** GLFW *)

Definition glfwInit : M unit :=
  emit Call_glfwInit ;; modify (with_glfw_live true).

Definition glfwWindowHint (hint : Sym) (value : HintValue) : M unit :=
  emit (Call_glfwWindowHint hint value).

(** [true] stands for a window handle, [false] for NULL.  The size asked
    for is that of the window; the framebuffer can be larger (lines
    527-528), and its size is told only by a resize event. *)
Definition glfwCreateWindow (width height : Z) (title : string) : M bool :=
  emit (Call_glfwCreateWindow width height title) ;;
  e <- gets host ;;
  ret (window_opens e).

Definition glfwTerminate : M unit :=
  emit Call_glfwTerminate ;; modify (with_glfw_live false).

Definition glfwMakeContextCurrent : M unit := emit Call_glfwMakeContextCurrent.

Definition glfwSetFramebufferSizeCallback : M unit :=
  emit Call_glfwSetFramebufferSizeCallback ;; modify (with_resize_callback true).

Definition glfwWindowShouldClose : M bool :=
  emit Call_glfwWindowShouldClose ;; gets should_close.

(** The last state reported for [key].  Escape is the one key among the
    enumerants; for anything else GLFW answers [GLFW_RELEASE]. *)
Definition glfwGetKey (key : Sym) : M Sym :=
  emit (Call_glfwGetKey key) ;;
  tk <- gets now ;;
  ret (match key with
       | GLFW_KEY_ESCAPE => if key_escape tk then GLFW_PRESS else GLFW_RELEASE
       | _ => GLFW_RELEASE
       end).

(** [==] on the two key states. *)
Definition is_press (state : Sym) : bool :=
  match state with GLFW_PRESS => true | _ => false end.

Definition glfwSetWindowShouldClose (value : bool) : M unit :=
  emit (Call_glfwSetWindowShouldClose value) ;; modify (with_should_close value).

(** The next sample of the clock; zero when the host has none left. *)
Definition glfwGetTime : M double :=
  emit Call_glfwGetTime ;;
  tk <- gets now ;;
  modify (with_now {| key_escape := key_escape tk; clock := tl (clock tk);
                      polled := polled tk |}) ;;
  ret (hd (S754_zero false) (clock tk)).

Definition glfwSwapBuffers : M unit := emit Call_glfwSwapBuffers.

(** *** GLAD *)

Definition gladLoadGLLoader : M bool :=
  emit Call_gladLoadGLLoader ;; e <- gets host ;; ret (loader_succeeds e).

(** *** OpenGL *)

Definition glViewport (x y width height : Z) : M unit :=
  emit (Call_glViewport x y width height).

Definition glGenVertexArrays : M GLuint :=
  n <- gets (fun w => fresh is_vertex_array (gl w)) ;;
  emit (Call_glGenVertexArrays n) ;;
  modify (with_gl (add_object (VertexArray n))) ;;
  ret n.

Definition glGenBuffers : M GLuint :=
  n <- gets (fun w => fresh is_buffer (gl w)) ;;
  emit (Call_glGenBuffers n) ;;
  modify (with_gl (add_object (Buffer n))) ;;
  ret n.

Definition glGenTextures : M GLuint :=
  n <- gets (fun w => fresh is_texture (gl w)) ;;
  emit (Call_glGenTextures n) ;;
  modify (with_gl (add_object (Texture n))) ;;
  ret n.

Definition glBindVertexArray (n : GLuint) : M unit :=
  emit (Call_glBindVertexArray n) ;; modify (with_gl (bind_vertex_array n)).

Definition glBindBuffer (target : Sym) (n : GLuint) : M unit :=
  emit (Call_glBindBuffer target n) ;; modify (with_gl (bind_buffer target n)).

Definition glBufferData (target : Sym) (size : Z) (d : BufferData) (usage : Sym)
  : M unit :=
  emit (Call_glBufferData target size d usage) ;;
  modify (with_gl (store_buffer target d)).

Definition glVertexAttribPointer (index size : Z) (type normalized : Sym)
  (stride offset : Z) : M unit :=
  emit (Call_glVertexAttribPointer index size type normalized stride offset).

Definition glEnableVertexAttribArray (index : Z) : M unit :=
  emit (Call_glEnableVertexAttribArray index).

Definition glBindTexture (target : Sym) (n : GLuint) : M unit :=
  emit (Call_glBindTexture target n) ;; modify (with_gl (bind_texture n)).

Definition glTexParameteri (target pname param : Sym) : M unit :=
  emit (Call_glTexParameteri target pname param).

Definition glTexImage2D (target : Sym) (level : Z) (internalformat : Sym)
  (width height border : Z) (format type : Sym) (i : Image) : M unit :=
  emit (Call_glTexImage2D target level internalformat width height border
          format type (img_pixels i)) ;;
  modify (with_gl (store_texture i)).

Definition glGenerateMipmap (target : Sym) : M unit :=
  emit (Call_glGenerateMipmap target).

Definition glClearColor (r g b a : float) : M unit :=
  emit (Call_glClearColor r g b a).

Definition glClear (mask : Sym) : M unit := emit (Call_glClear mask).

Definition glGetUniformLocation (prog : GLuint) (name : string) : M Uniform :=
  emit (Call_glGetUniformLocation prog name) ;;
  ret {| u_program := prog; u_name := name |}.

(** A uniform upload lands in the program in use at that moment. *)
Definition glUniformMatrix4fv (location : Uniform) (count : Z) (transpose : Sym)
  (value : mat4) : M unit :=
  p <- gets (fun w => program (gl w)) ;;
  emit (Call_glUniformMatrix4fv location count transpose value p).

Definition glUniform1f (location : Uniform) (v : float32) : M unit :=
  p <- gets (fun w => program (gl w)) ;;
  emit (Call_glUniform1f location v p).

Definition glDrawElements (mode : Sym) (count : Z) (type : Sym) (offset : Z)
  : M unit :=
  l <- gets (fun w => fetch_indices (gl w) count offset) ;;
  emit (Call_glDrawElements mode count type offset l).

Definition glDeleteVertexArrays (n : GLuint) : M unit :=
  emit (Call_glDeleteVertexArrays n) ;;
  modify (with_gl (drop_object (VertexArray n))).

Definition glDeleteBuffers (n : GLuint) : M unit :=
  emit (Call_glDeleteBuffers n) ;;
  modify (with_gl (drop_object (Buffer n))).

(** *** stb_image *)

Definition stbi_load (path : string) : M (option Image) :=
  emit (Call_stbi_load path) ;; e <- gets host ;; ret (image_file e).

Definition stbi_image_free (data : option Image) : M unit :=
  emit Call_stbi_image_free.

(** *** The shader class *)

(** Modelled from the spec: [Shader::Shader], [Shader::use] and
    [Shader::getProgram] (shader.h and shader.cpp are not among the source
    files): "compile(vertex_source_path, fragment_source_path) -> program
    handle" and "use(program)".  Compiling yields the program named by the
    host and leaves in use whatever program the host says; [use] makes the
    program the one in use. *)
Definition Shader (vertexPath fragmentPath : string) : M GLuint :=
  emit (Call_Shader vertexPath fragmentPath) ;;
  e <- gets host ;;
  modify (with_gl (add_object (ShaderProgram (program_name e)))) ;;
  modify (with_gl (use_program (active_after_compile e))) ;;
  ret (program_name e).

Definition Shader_use (ID : GLuint) : M unit :=
  emit (Call_Shader_use ID) ;; modify (with_gl (use_program (Some ID))).

Definition Shader_getProgram (ID : GLuint) : GLuint := ID.

(** *** Event delivery *)

(** [glfwPollEvents] hands the waiting events to GLFW: a resize is noted
    and runs the registered callback with the new size of the framebuffer,
    a close request raises the window's close flag. *)
Fixpoint deliver (on_resize : Z -> Z -> M unit) (evs : list HostEvent) : M unit :=
  match evs with
  | [] => ret tt
  | FramebufferResized width height :: rest =>
      modify (with_framebuffer (width, height)) ;;
      registered <- gets resize_callback ;;
      when registered (on_resize width height) ;;
      deliver on_resize rest
  | CloseRequested :: rest =>
      modify (with_should_close true) ;;
      deliver on_resize rest
  end.

Definition glfwPollEvents_with (on_resize : Z -> Z -> M unit) : M unit :=
  emit Call_glfwPollEvents ;;
  tk <- gets now ;;
  deliver on_resize (polled tk).

End Host.

(** ** main.cpp *)

Module Program.

Import Ieee Glm Host.
Local Open Scope string_scope.
Local Open Scope list_scope.
Local Open Scope Z_scope.
Local Open Scope prog_scope.

Definition SCR_WIDTH : Z := 800.
Definition SCR_HEIGHT : Z := 600.

(** How [main] ends: it returns a status, or the script of the host ran out
    while the window was still open. *)
Inductive Outcome :=
| Exited (status : Z)
| Running.

Definition vertices : list float :=
  [ 0.5;  0.5; 0;   1; 0; 0;   1; 1;
    0.5; -0.5; 0;   0; 1; 0;   1; 0;
   -0.5; -0.5; 0;   0; 0; 1;   0; 0;
   -0.5;  0.5; 0;   1; 1; 0;   0; 1 ]%R.

Definition indices : list Z :=
  [ 0; 1; 3;
    1; 2; 3 ].

Definition sizeof_float : Z := 4.
Definition sizeof_unsigned_int : Z := 4.

(** The four matrices of one frame, as lines 454-468 build them.  The
    angle of the first is [(float)glfwGetTime() * 50.0f], a cast and a
    product in single precision, handed to [glm::radians].  When that angle
    is an infinity or a NaN the matrix of the program has no real entries;
    [frame_trans] is meant for the finite angles. *)
Definition spin_degrees (time : double) : float32 :=
  fmul32 (to_float32 time) (float32_of_Z 50).

Definition spin_angle (time : double) : float32 :=
  radians32 (spin_degrees time).

Definition frame_trans (time : double) : mat4 :=
  rotate (mat4_diag 1) (real_of (spin_angle time)) (Vec3 0 0 1).

Definition frame_model : mat4 :=
  rotate (mat4_diag 1) (radians (-55)) (Vec3 1 0 0).

Definition frame_view : mat4 :=
  translate (mat4_diag 1) (Vec3 0 0 (-3)).

Definition frame_projection : mat4 :=
  perspective (radians 45) (800 / 600) 0.1 100.

Definition framebuffer_size_callback (width height : Z) : M unit :=
  glViewport 0 0 width height.

Definition glfwPollEvents : M unit :=
  glfwPollEvents_with framebuffer_size_callback.

Definition processInput : M unit :=
  state <- glfwGetKey GLFW_KEY_ESCAPE ;;
  when (is_press state) (glfwSetWindowShouldClose true).

(** One pass through the body of the render loop (lines 442-500). *)
Definition frame (ourShader VAO texture : GLuint) : M unit :=
  processInput ;;
  glClearColor 0.2 0.3 0.3 1 ;;
  glClear GL_COLOR_BUFFER_BIT ;;
  glBindTexture GL_TEXTURE_2D texture ;;
  time <- glfwGetTime ;;
  let trans := frame_trans time in
  let model := frame_model in
  let view := frame_view in
  let projection := frame_projection in
  modelLoc <- glGetUniformLocation ourShader "model" ;;
  viewLoc <- glGetUniformLocation ourShader "view" ;;
  projectionLoc <- glGetUniformLocation ourShader "projection" ;;
  glUniformMatrix4fv modelLoc 1 GL_FALSE model ;;
  glUniformMatrix4fv viewLoc 1 GL_FALSE view ;;
  glUniformMatrix4fv projectionLoc 1 GL_FALSE projection ;;
  Shader_use ourShader ;;
  uniformTime <- glGetUniformLocation (Shader_getProgram ourShader) "time" ;;
  transformLoc <- glGetUniformLocation ourShader "transform" ;;
  glUniformMatrix4fv transformLoc 1 GL_FALSE trans ;;
  seconds <- glfwGetTime ;;
  glUniform1f uniformTime (to_float32 seconds) ;;
  glBindVertexArray VAO ;;
  glDrawElements GL_TRIANGLES 6 GL_UNSIGNED_INT 0 ;;
  glfwSwapBuffers ;;
  glfwPollEvents.

(** [while (!glfwWindowShouldClose(window)) { ... }], one tick of the host
    per iteration.  The result says whether the loop was left. *)
Fixpoint render_loop (ourShader VAO texture : GLuint) (script : list Tick)
  : M bool :=
  closing <- glfwWindowShouldClose ;;
  if closing then ret true
  else
    match script with
    | [] => ret false
    | tk :: rest =>
        modify (with_now tk) ;;
        frame ourShader VAO texture ;;
        render_loop ourShader VAO texture rest
    end.

Definition main : M Outcome :=
  glfwInit ;;
  glfwWindowHint GLFW_CONTEXT_VERSION_MAJOR (IntVal 3) ;;
  glfwWindowHint GLFW_CONTEXT_VERSION_MINOR (IntVal 3) ;;
  glfwWindowHint GLFW_OPENGL_PROFILE (SymVal GLFW_OPENGL_CORE_PROFILE) ;;
  e <- gets host ;;
  when (apple e) (glfwWindowHint GLFW_OPENGL_FORWARD_COMPAT (SymVal GL_TRUE)) ;;
  window <- glfwCreateWindow SCR_WIDTH SCR_HEIGHT "LearnOpenGL" ;;
  if negb window then
    cout "Failed to create GLFW window" ;;
    glfwTerminate ;;
    ret (Exited (-1))
  else
  glfwMakeContextCurrent ;;
  glfwSetFramebufferSizeCallback ;;
  loaded <- gladLoadGLLoader ;;
  if negb loaded then
    cout "Failed to initialize GLAD" ;;
    ret (Exited (-1))
  else
  ourShader <- Shader "4.1.texturevs.txt" "4.1.texturefs.txt" ;;
  VAO <- glGenVertexArrays ;;
  VBO <- glGenBuffers ;;
  EBO <- glGenBuffers ;;
  glBindVertexArray VAO ;;
  glBindBuffer GL_ARRAY_BUFFER VBO ;;
  glBufferData GL_ARRAY_BUFFER (sizeof_float * Z.of_nat (List.length vertices))
    (Floats vertices) GL_STATIC_DRAW ;;
  glBindBuffer GL_ELEMENT_ARRAY_BUFFER EBO ;;
  glBufferData GL_ELEMENT_ARRAY_BUFFER
    (sizeof_unsigned_int * Z.of_nat (List.length indices))
    (UInts indices) GL_STATIC_DRAW ;;
  glVertexAttribPointer 0 3 GL_FLOAT GL_FALSE (8 * sizeof_float) 0 ;;
  glEnableVertexAttribArray 0 ;;
  glVertexAttribPointer 1 3 GL_FLOAT GL_FALSE (8 * sizeof_float) (3 * sizeof_float) ;;
  glEnableVertexAttribArray 1 ;;
  glVertexAttribPointer 2 2 GL_FLOAT GL_FALSE (8 * sizeof_float) (6 * sizeof_float) ;;
  glEnableVertexAttribArray 2 ;;
  texture <- glGenTextures ;;
  glBindTexture GL_TEXTURE_2D texture ;;
  glTexParameteri GL_TEXTURE_2D GL_TEXTURE_WRAP_S GL_REPEAT ;;
  glTexParameteri GL_TEXTURE_2D GL_TEXTURE_WRAP_T GL_REPEAT ;;
  glTexParameteri GL_TEXTURE_2D GL_TEXTURE_MIN_FILTER GL_LINEAR ;;
  glTexParameteri GL_TEXTURE_2D GL_TEXTURE_MAG_FILTER GL_LINEAR ;;
  data <- stbi_load "container.jpg" ;;
  match data with
  | Some image =>
      glTexImage2D GL_TEXTURE_2D 0 GL_RGB (img_width image) (img_height image) 0
        GL_RGB GL_UNSIGNED_BYTE image ;;
      glGenerateMipmap GL_TEXTURE_2D
  | None =>
      cout "Failed to load texture"
  end ;;
  stbi_image_free data ;;
  left <- render_loop ourShader VAO texture (ticks e) ;;
  if negb left then ret Running
  else
  glDeleteVertexArrays VAO ;;
  glDeleteBuffers VBO ;;
  glDeleteBuffers EBO ;;
  glfwTerminate ;;
  ret (Exited 0).

(** Run [main] against a host. *)
Definition run (e : Env) : Outcome * World := main (boot e).

Definition outcome (e : Env) : Outcome := fst (run e).
Definition trace (e : Env) : list Call := calls (snd (run e)).

End Program.

(** ** Reading a trace *)

Module Observe.

Import Ieee Glm Host Program.
Local Open Scope string_scope.
Local Open Scope list_scope.
Local Open Scope Z_scope.

(** *** Which iterations run *)

Definition is_close (ev : HostEvent) : bool :=
  match ev with CloseRequested => true | FramebufferResized _ _ => false end.

(** A tick after which the close flag is up: Escape was down, or the host
    asked to close. *)
Definition tick_closes (tk : Tick) : bool :=
  key_escape tk || existsb is_close (polled tk).

Definition closes (script : list Tick) : bool := existsb tick_closes script.

(** The ticks the loop consumes: up to and including the first closing one. *)
Fixpoint executed (script : list Tick) : list Tick :=
  match script with
  | [] => []
  | tk :: rest => tk :: (if tick_closes tk then [] else executed rest)
  end.

Definition initialised (e : Env) : bool := window_opens e && loader_succeeds e.

(** The iterations of the render loop in a run against [e]. *)
Definition frames (e : Env) : list Tick :=
  if initialised e then executed (ticks e) else [].

Definition first_time (tk : Tick) : double := hd (S754_zero false) (clock tk).
Definition second_time (tk : Tick) : double :=
  hd (S754_zero false) (tl (clock tk)).

(** The angle of the spin built from the first reading of [tk] is a finite
    number. *)
Definition spin_defined (tk : Tick) : bool :=
  is_finite (spin_angle (first_time tk)).

(** *** Projections of a list of calls *)

Definition count_calls (p : Call -> bool) (l : list Call) : nat :=
  List.length (filter p l).

Definition cout_lines (l : list Call) : list string :=
  flat_map (fun c => match c with Call_cout s => [s] | _ => [] end) l.

Definition cerr_lines (l : list Call) : list string :=
  flat_map (fun c => match c with Call_cerr s => [s] | _ => [] end) l.

Definition is_glfwCreateWindow (c : Call) : bool :=
  match c with Call_glfwCreateWindow _ _ _ => true | _ => false end.
Definition is_gladLoadGLLoader (c : Call) : bool :=
  match c with Call_gladLoadGLLoader => true | _ => false end.
Definition is_glfwTerminate (c : Call) : bool :=
  match c with Call_glfwTerminate => true | _ => false end.
Definition is_glTexImage2D (c : Call) : bool :=
  match c with Call_glTexImage2D _ _ _ _ _ _ _ _ _ => true | _ => false end.
Definition is_glGenerateMipmap (c : Call) : bool :=
  match c with Call_glGenerateMipmap _ => true | _ => false end.
Definition is_glfwSwapBuffers (c : Call) : bool :=
  match c with Call_glfwSwapBuffers => true | _ => false end.
Definition is_glDrawElements (c : Call) : bool :=
  match c with Call_glDrawElements _ _ _ _ _ => true | _ => false end.

(** The explicit release calls that name [r]. *)
Definition releases (r : Resource) (c : Call) : bool :=
  match c with
  | Call_glDeleteVertexArrays n => same_resource r (VertexArray n)
  | Call_glDeleteBuffers n => same_resource r (Buffer n)
  | Call_glDeleteTextures n => same_resource r (Texture n)
  | Call_glDeleteProgram n => same_resource r (ShaderProgram n)
  | _ => false
  end.

(** The matrices uploaded to the uniform called [name], in order. *)
Definition uploads_to (name : string) (l : list Call) : list mat4 :=
  flat_map (fun c =>
    match c with
    | Call_glUniformMatrix4fv loc _ _ v _ =>
        if String.eqb (u_name loc) name then [v] else []
    | _ => []
    end) l.

(** The indexed draws: mode, count and the indices read. *)
Definition draws (l : list Call) : list (Sym * Z * list Z) :=
  flat_map (fun c =>
    match c with
    | Call_glDrawElements mode count _ _ fetched => [(mode, count, fetched)]
    | _ => []
    end) l.

(** Uniform uploads and [use()] calls, in order, between the tests of the
    loop condition that separate the iterations. *)
Inductive Step :=
| Upload (name : string) (in_use : option GLuint)
| Use (prog : GLuint)
| LoopTest.

Definition upload_log (l : list Call) : list Step :=
  flat_map (fun c =>
    match c with
    | Call_glUniformMatrix4fv loc _ _ _ p => [Upload (u_name loc) p]
    | Call_glUniform1f loc _ p => [Upload (u_name loc) p]
    | Call_Shader_use p => [Use p]
    | Call_glfwWindowShouldClose => [LoopTest]
    | _ => []
    end) l.

(** What one iteration contributes to [upload_log], when [in_use] is the
    program in use as the iteration starts. *)
Definition frame_upload_log (ID : GLuint) (in_use : option GLuint) : list Step :=
  [ Upload "model" in_use; Upload "view" in_use; Upload "projection" in_use;
    Use ID;
    Upload "transform" (Some ID); Upload "time" (Some ID) ].

(** [n] iterations, each followed by the next test of the loop condition. *)
Fixpoint loop_upload_log (ID : GLuint) (in_use : option GLuint) (n : nat)
  : list Step :=
  match n with
  | O => []
  | S n' =>
      frame_upload_log ID in_use ++ [LoopTest] ++ loop_upload_log ID (Some ID) n'
  end.

(** Every upload to "projection", with the framebuffer size in effect when
    it is issued: the size the window was created with, then the size the
    resize callback was last told. *)
Fixpoint projections (size : Z * Z) (l : list Call) : list (Z * Z * mat4) :=
  match l with
  | [] => []
  | Call_glfwCreateWindow w h _ :: rest => projections (w, h) rest
  | Call_glViewport _ _ w h :: rest => projections (w, h) rest
  | Call_glUniformMatrix4fv loc _ _ v _ :: rest =>
      if String.eqb (u_name loc) "projection"
      then (size, v) :: projections size rest
      else projections size rest
  | _ :: rest => projections size rest
  end.

(** Triangles of an index list, three indices at a time. *)
Fixpoint triangles (l : list Z) : list (Z * Z * Z) :=
  match l with
  | a :: b :: c :: rest => (a, b, c) :: triangles rest
  | _ => []
  end.

(** *** The calls of one run, piece by piece *)

Definition poll_calls (evs : list HostEvent) : list Call :=
  flat_map (fun ev =>
    match ev with
    | FramebufferResized w h => [Call_glViewport 0 0 w h]
    | CloseRequested => []
    end) evs.

Definition uniform (ID : GLuint) (name : string) : Uniform :=
  {| u_program := ID; u_name := name |}.

Definition frame_calls (ID VAO texture : GLuint) (in_use : option GLuint)
  (tk : Tick) : list Call :=
  [Call_glfwGetKey GLFW_KEY_ESCAPE] ++
  (if key_escape tk then [Call_glfwSetWindowShouldClose true] else []) ++
  [ Call_glClearColor 0.2 0.3 0.3 1;
    Call_glClear GL_COLOR_BUFFER_BIT;
    Call_glBindTexture GL_TEXTURE_2D texture;
    Call_glfwGetTime;
    Call_glGetUniformLocation ID "model";
    Call_glGetUniformLocation ID "view";
    Call_glGetUniformLocation ID "projection";
    Call_glUniformMatrix4fv (uniform ID "model") 1 GL_FALSE frame_model in_use;
    Call_glUniformMatrix4fv (uniform ID "view") 1 GL_FALSE frame_view in_use;
    Call_glUniformMatrix4fv (uniform ID "projection") 1 GL_FALSE
      frame_projection in_use;
    Call_Shader_use ID;
    Call_glGetUniformLocation ID "time";
    Call_glGetUniformLocation ID "transform";
    Call_glUniformMatrix4fv (uniform ID "transform") 1 GL_FALSE
      (frame_trans (first_time tk)) (Some ID);
    Call_glfwGetTime;
    Call_glUniform1f (uniform ID "time") (to_float32 (second_time tk)) (Some ID);
    Call_glBindVertexArray VAO;
    Call_glDrawElements GL_TRIANGLES 6 GL_UNSIGNED_INT 0 indices;
    Call_glfwSwapBuffers;
    Call_glfwPollEvents ] ++
  poll_calls (polled tk).

(** The calls of [render_loop]: the test of the close flag, then, while it
    is down and the script lasts, one iteration and the rest. *)
Fixpoint loop_calls (ID VAO texture : GLuint) (closing : bool)
  (in_use : option GLuint) (script : list Tick) : list Call :=
  Call_glfwWindowShouldClose ::
  (if closing then []
   else
     match script with
     | [] => []
     | tk :: rest =>
         frame_calls ID VAO texture in_use tk ++
         loop_calls ID VAO texture (tick_closes tk) (Some ID) rest
     end).

Definition hint_calls (e : Env) : list Call :=
  [ Call_glfwWindowHint GLFW_CONTEXT_VERSION_MAJOR (IntVal 3);
    Call_glfwWindowHint GLFW_CONTEXT_VERSION_MINOR (IntVal 3);
    Call_glfwWindowHint GLFW_OPENGL_PROFILE (SymVal GLFW_OPENGL_CORE_PROFILE) ] ++
  (if apple e
   then [Call_glfwWindowHint GLFW_OPENGL_FORWARD_COMPAT (SymVal GL_TRUE)]
   else []).

(** From [glfwInit] to the answer of [glfwCreateWindow]. *)
Definition window_calls (e : Env) : list Call :=
  [Call_glfwInit] ++ hint_calls e ++
  [Call_glfwCreateWindow SCR_WIDTH SCR_HEIGHT "LearnOpenGL"].

Definition loader_calls : list Call :=
  [ Call_glfwMakeContextCurrent; Call_glfwSetFramebufferSizeCallback;
    Call_gladLoadGLLoader ].

(** From the shader to [stbi_image_free] (lines 371-435). *)
Definition setup_calls (e : Env) : list Call :=
  [ Call_Shader "4.1.texturevs.txt" "4.1.texturefs.txt";
    Call_glGenVertexArrays 1; Call_glGenBuffers 1; Call_glGenBuffers 2;
    Call_glBindVertexArray 1;
    Call_glBindBuffer GL_ARRAY_BUFFER 1;
    Call_glBufferData GL_ARRAY_BUFFER 128 (Floats vertices) GL_STATIC_DRAW;
    Call_glBindBuffer GL_ELEMENT_ARRAY_BUFFER 2;
    Call_glBufferData GL_ELEMENT_ARRAY_BUFFER 24 (UInts indices) GL_STATIC_DRAW;
    Call_glVertexAttribPointer 0 3 GL_FLOAT GL_FALSE 32 0;
    Call_glEnableVertexAttribArray 0;
    Call_glVertexAttribPointer 1 3 GL_FLOAT GL_FALSE 32 12;
    Call_glEnableVertexAttribArray 1;
    Call_glVertexAttribPointer 2 2 GL_FLOAT GL_FALSE 32 24;
    Call_glEnableVertexAttribArray 2;
    Call_glGenTextures 1;
    Call_glBindTexture GL_TEXTURE_2D 1;
    Call_glTexParameteri GL_TEXTURE_2D GL_TEXTURE_WRAP_S GL_REPEAT;
    Call_glTexParameteri GL_TEXTURE_2D GL_TEXTURE_WRAP_T GL_REPEAT;
    Call_glTexParameteri GL_TEXTURE_2D GL_TEXTURE_MIN_FILTER GL_LINEAR;
    Call_glTexParameteri GL_TEXTURE_2D GL_TEXTURE_MAG_FILTER GL_LINEAR;
    Call_stbi_load "container.jpg" ] ++
  match image_file e with
  | Some image =>
      [ Call_glTexImage2D GL_TEXTURE_2D 0 GL_RGB (img_width image)
          (img_height image) 0 GL_RGB GL_UNSIGNED_BYTE (img_pixels image);
        Call_glGenerateMipmap GL_TEXTURE_2D ]
  | None => [Call_cout "Failed to load texture"]
  end ++
  [Call_stbi_image_free].

(** Lines 505-511. *)
Definition shutdown_calls : list Call :=
  [ Call_glDeleteVertexArrays 1; Call_glDeleteBuffers 1; Call_glDeleteBuffers 2;
    Call_glfwTerminate ].

(** The whole run. *)
Definition run_calls (e : Env) : list Call :=
  window_calls e ++
  (if negb (window_opens e)
   then [Call_cout "Failed to create GLFW window"; Call_glfwTerminate]
   else
     loader_calls ++
     (if negb (loader_succeeds e)
      then [Call_cout "Failed to initialize GLAD"]
      else
        setup_calls e ++
        loop_calls (program_name e) 1 1 false (active_after_compile e) (ticks e) ++
        (if closes (ticks e) then shutdown_calls else []))).

(** What a projection [g] of the calls collects over the iterations [l],
    when one iteration that starts with [in_use] in use, together with the
    test of the loop condition that follows it, contributes
    [part in_use tk]. *)
Fixpoint per_frame {B : Type} (ID : GLuint)
  (part : option GLuint -> Tick -> list B) (in_use : option GLuint)
  (l : list Tick) : list B :=
  match l with
  | [] => []
  | tk :: rest => part in_use tk ++ per_frame ID part (Some ID) rest
  end.

(** *** The world around the loop *)

(** The world as [main] enters the render loop. *)
Definition world_at_loop (e : Env) : World :=
  {| host := e; now := no_tick;
     calls := window_calls e ++ loader_calls ++ setup_calls e;
     glfw_live := true; resize_callback := true; should_close := false;
     framebuffer := (0, 0);
     gl := {| vertex_array_binding := 1; array_buffer_binding := 1;
              element_bindings := [(1, 2)];
              buffers := [(2, UInts indices); (1, Floats vertices)];
              texture_binding := 1;
              textures := match image_file e with
                          | Some image => [(1, image)]
                          | None => []
                          end;
              program := active_after_compile e;
              objects := [ShaderProgram (program_name e); VertexArray 1;
                          Buffer 1; Buffer 2; Texture 1] |} |}.

(** Lines 503-512, what follows the loop. *)
Definition after_loop (left : bool) : M Outcome :=
  (if negb left then ret Running
   else
     glDeleteVertexArrays 1 ;;
     glDeleteBuffers 1 ;;
     glDeleteBuffers 2 ;;
     glfwTerminate ;;
     ret (Exited 0))%prog.

(** What an iteration relies on: the resize callback is registered, and the
    element buffer of vertex array [VAO] holds [indices]. *)
Definition Ready (VAO : GLuint) (w : World) : Prop :=
  resize_callback w = true /\
  exists ebo,
    lookup VAO (element_bindings (gl w)) = Some ebo /\
    lookup ebo (buffers (gl w)) = Some (UInts indices).

(** What event delivery leaves alone. *)
Record Kept (w w' : World) : Prop := {
  kept_host : host w' = host w;
  kept_live : glfw_live w' = glfw_live w;
  kept_callback : resize_callback w' = resize_callback w;
  kept_gl : gl w' = gl w
}.

(** What [main] returns against [e]. *)
Definition run_outcome (e : Env) : Outcome :=
  if negb (window_opens e) then Exited (-1)
  else if negb (loader_succeeds e) then Exited (-1)
  else if closes (ticks e) then Exited 0
  else Running.

(** *** Hosts to run against *)

Definition quiet_tick : Tick :=
  {| key_escape := false; clock := [double_of_Z 0; double_of_Z 0]; polled := [] |}.

(** The window cannot be created. *)
Definition no_window_host : Env :=
  {| apple := false; window_opens := false; loader_succeeds := true;
     program_name := 3; active_after_compile := None; image_file := None;
     ticks := [] |}.

(** The window opens, the function pointers cannot be loaded. *)
Definition no_loader_host : Env :=
  {| apple := false; window_opens := true; loader_succeeds := false;
     program_name := 3; active_after_compile := None; image_file := None;
     ticks := [] |}.

(** Everything starts, there is no container.jpg, and Escape is down during
    the second iteration. *)
Definition escape_host : Env :=
  {| apple := false; window_opens := true; loader_succeeds := true;
     program_name := 3; active_after_compile := None; image_file := None;
     ticks := [ quiet_tick;
                {| key_escape := true; clock := [double_of_Z 1; double_of_Z 1];
                   polled := [] |} ] |}.

(** The window is resized to 1024x512 while the first frame is presented;
    the user closes it during the second. *)
Definition resized_host : Env :=
  {| apple := false; window_opens := true; loader_succeeds := true;
     program_name := 3; active_after_compile := None; image_file := None;
     ticks := [ {| key_escape := false; clock := [double_of_Z 0; double_of_Z 0];
                   polled := [FramebufferResized 1024 512] |};
                {| key_escape := false; clock := [double_of_Z 1; double_of_Z 1];
                   polled := [CloseRequested] |} ] |}.

(** *** Readings of the clock *)

(** 3.6 seconds: the [double] next to 3.6. *)
Definition seconds_3_6 : double := S754_finite false 8106479329266893 (-51).

(** 16777217 seconds, that is 2^24 + 1: a [double] that is no [float]. *)
Definition seconds_16777217 : double := double_of_Z 16777217.

(** *** Four sentences of the specification, as written *)

(** "spin = Rotate(identity, angle=time_seconds x 50 degrees,
    axis=(0,0,1))" at the reading [t], every entry within [eps]. *)
Definition spin_is_time_times_50 (eps : float) (t : double) : Prop :=
  mat4_close eps (frame_trans t)
    (rotate identity (radians (real_of t * 50)) (Vec3 0 0 1)).

(** "Initialization failures are ... reported via a message to the standard
    error stream followed by process exit", with a nonzero status and
    without a second attempt. *)
Definition reports_failure_on_stderr (e : Env) : Prop :=
  initialised e = false ->
  cerr_lines (trace e) <> [] /\
  (exists status, outcome e = Exited status /\ status <> 0) /\
  count_calls is_glfwCreateWindow (trace e) = 1%nat.

(** "projection = Perspective(fovY=45, aspect=width/height, near=0.1,
    far=100.0)", from the framebuffer size current at the upload. *)
Definition projection_follows_framebuffer (e : Env) : Prop :=
  Forall (fun entry : Z * Z * mat4 =>
            let '(width, height, m) := entry in
            m = perspective (radians 45) (IZR width / IZR height) 0.1 100)
         (projections (0, 0) (trace e)).

(** "GPU resources (vertex array, two buffers, one texture, one shader
    program) are ... released exactly once at shutdown via explicit ...
    release calls", for the objects of a run against [e]. *)
Definition every_resource_released_once (e : Env) : Prop :=
  Forall (fun r => count_calls (releases r) (trace e) = 1%nat)
         [ VertexArray 1; Buffer 1; Buffer 2; Texture 1;
           ShaderProgram (program_name e) ].

End Observe.

(** ** Reading more of a run *)

Module Survey.

Import Ieee Glm Host Program Observe.
Local Open Scope string_scope.
Local Open Scope list_scope.
Local Open Scope Z_scope.

(** *** Vectors through the matrices *)

(** Modelled from the spec: the product of a [glm::mat4] and a [glm::vec4]
    (lib/glm is not among the source files), "a 4x4-matrix-times-4-vector
    chain": the columns weighted by the components. *)
Definition mul_mat_vec (m : mat4) (v : vec4) : vec4 :=
  vadd (vadd (vadd (vscale (col0 m) (x4 v)) (vscale (col1 m) (y4 v)))
             (vscale (col2 m) (z4 v)))
       (vscale (col3 m) (w4 v)).

(** The positions in an interleaved vertex array of stride 8: the first
    three floats of every vertex, as a point. *)
Fixpoint positions (l : list float) : list vec4 :=
  match l with
  | x :: y :: z :: _ :: _ :: _ :: _ :: _ :: rest => Vec4 x y z 1 :: positions rest
  | _ => []
  end.

(** Inside the clip volume: in front of the eye and between -w and w on
    every axis. *)
Definition in_clip_volume (c : vec4) : Prop :=
  (0 < w4 c /\ - w4 c <= x4 c <= w4 c /\ - w4 c <= y4 c <= w4 c /\
   - w4 c <= z4 c <= w4 c)%R.

(** Where the model, view and projection matrices of a frame take a local
    position: [projection * view * model * v]. *)
Definition clip_position (v : vec4) : vec4 :=
  mul_mat_vec frame_projection (mul_mat_vec frame_view (mul_mat_vec frame_model v)).

(** *** More projections of a list of calls *)

Inductive Phase :=
| AtTest | AtInput | AtClear | AtBindTexture | AtDraw | AtPresent | AtPoll.

(** The stages of rendering, in the order they are called. *)
Definition phase_log (l : list Call) : list Phase :=
  flat_map (fun c =>
    match c with
    | Call_glfwWindowShouldClose => [AtTest]
    | Call_glfwGetKey _ => [AtInput]
    | Call_glClear _ => [AtClear]
    | Call_glBindTexture _ _ => [AtBindTexture]
    | Call_glDrawElements _ _ _ _ _ => [AtDraw]
    | Call_glfwSwapBuffers => [AtPresent]
    | Call_glfwPollEvents => [AtPoll]
    | _ => []
    end) l.

Definition iteration_phases : list Phase :=
  [AtInput; AtClear; AtBindTexture; AtDraw; AtPresent; AtPoll; AtTest].

(** The arguments of the [glViewport] calls. *)
Definition viewports (l : list Call) : list (Z * Z * Z * Z) :=
  flat_map (fun c =>
    match c with
    | Call_glViewport x y w h => [(x, y, w, h)]
    | _ => []
    end) l.

Definition to_viewport (size : Z * Z) : Z * Z * Z * Z :=
  (0, 0, fst size, snd size).

(** The sizes the host reports in a batch of events. *)
Definition resizes (evs : list HostEvent) : list (Z * Z) :=
  flat_map (fun ev =>
    match ev with
    | FramebufferResized w h => [(w, h)]
    | CloseRequested => []
    end) evs.

(** The sizes reported during some iterations, in order. *)
Definition sizes_of (l : list Tick) : list (Z * Z) :=
  flat_map (fun tk => resizes (polled tk)) l.

(** The sizes reported during the iterations of a run. *)
Definition reported_sizes (e : Env) : list (Z * Z) := sizes_of (frames e).

(** The values passed to [glfwSetWindowShouldClose]. *)
Definition close_requests (l : list Call) : list bool :=
  flat_map (fun c =>
    match c with
    | Call_glfwSetWindowShouldClose b => [b]
    | _ => []
    end) l.

(** The keys [glfwGetKey] is asked about. *)
Definition key_queries (l : list Call) : list Sym :=
  flat_map (fun c =>
    match c with
    | Call_glfwGetKey key => [key]
    | _ => []
    end) l.

Definition is_glfwGetTime (c : Call) : bool :=
  match c with Call_glfwGetTime => true | _ => false end.
Definition is_stbi_image_free (c : Call) : bool :=
  match c with Call_stbi_image_free => true | _ => false end.

(** The calls into OpenGL proper, which need the function pointers GLAD
    loads. *)
Definition is_gl_call (c : Call) : bool :=
  match c with
  | Call_glGenVertexArrays _ | Call_glGenBuffers _ | Call_glGenTextures _
  | Call_glBindVertexArray _ | Call_glBindBuffer _ _
  | Call_glBufferData _ _ _ _ | Call_glVertexAttribPointer _ _ _ _ _ _
  | Call_glEnableVertexAttribArray _ | Call_glBindTexture _ _
  | Call_glTexParameteri _ _ _ | Call_glTexImage2D _ _ _ _ _ _ _ _ _
  | Call_glGenerateMipmap _ | Call_glClearColor _ _ _ _ | Call_glClear _
  | Call_glGetUniformLocation _ _ | Call_glUniformMatrix4fv _ _ _ _ _
  | Call_glUniform1f _ _ _ | Call_glDrawElements _ _ _ _ _
  | Call_glViewport _ _ _ _ | Call_glDeleteVertexArrays _
  | Call_glDeleteBuffers _ | Call_glDeleteTextures _
  | Call_glDeleteProgram _ => true
  | _ => false
  end.

(** The calls up to and including the first [gladLoadGLLoader]; all of them
    when there is none. *)
Fixpoint until_loader (l : list Call) : list Call :=
  match l with
  | [] => []
  | c :: rest => c :: (if is_gladLoadGLLoader c then [] else until_loader rest)
  end.

(** A vertex attribute as [glVertexAttribPointer] declares it. *)
Record Attribute := {
  at_index : Z;
  at_size : Z;       (* components *)
  at_stride : Z;     (* bytes *)
  at_offset : Z      (* bytes *)
}.

Definition attributes (l : list Call) : list Attribute :=
  flat_map (fun c =>
    match c with
    | Call_glVertexAttribPointer index size _ _ stride offset =>
        [{| at_index := index; at_size := size; at_stride := stride;
            at_offset := offset |}]
    | _ => []
    end) l.

(** The byte sizes given to [glBufferData] for the array buffer. *)
Definition array_buffer_sizes (l : list Call) : list Z :=
  flat_map (fun c =>
    match c with
    | Call_glBufferData GL_ARRAY_BUFFER size _ _ => [size]
    | _ => []
    end) l.

(** The bytes attribute [a] of vertex [i] occupies lie inside a buffer of
    [size] bytes. *)
Definition fetch_in_bounds (size : Z) (a : Attribute) (i : Z) : Prop :=
  0 <= i * at_stride a + at_offset a /\
  i * at_stride a + at_offset a + at_size a * sizeof_float <= size.

(** The floats uploaded to the uniform called [name]. *)
Definition float_uploads (name : string) (l : list Call) : list float32 :=
  flat_map (fun c =>
    match c with
    | Call_glUniform1f loc v _ => if String.eqb (u_name loc) name then [v] else []
    | _ => []
    end) l.

(** The uniform locations asked for. *)
Definition lookups (l : list Call) : list (GLuint * string) :=
  flat_map (fun c =>
    match c with
    | Call_glGetUniformLocation prog name => [(prog, name)]
    | _ => []
    end) l.

Definition frame_lookups (ID : GLuint) : list (GLuint * string) :=
  [(ID, "model"); (ID, "view"); (ID, "projection"); (ID, "time");
   (ID, "transform")].

(** What [glTexImage2D] is given: formats, size and pixels. *)
Definition texture_images (l : list Call)
  : list (Sym * Z * Z * Sym * Sym * list Byte.byte) :=
  flat_map (fun c =>
    match c with
    | Call_glTexImage2D _ _ internalformat width height _ format type pixels =>
        [(internalformat, width, height, format, type, pixels)]
    | _ => []
    end) l.

(** *** Hosts that differ in one answer *)

Definition with_ticks (e : Env) (script : list Tick) : Env :=
  {| apple := apple e; window_opens := window_opens e;
     loader_succeeds := loader_succeeds e; program_name := program_name e;
     active_after_compile := active_after_compile e;
     image_file := image_file e; ticks := script |}.

Definition with_channels (i : Image) (n : Z) : Image :=
  {| img_width := img_width i; img_height := img_height i;
     img_channels := n; img_pixels := img_pixels i |}.

Definition with_image (e : Env) (i : option Image) : Env :=
  {| apple := apple e; window_opens := window_opens e;
     loader_succeeds := loader_succeeds e; program_name := program_name e;
     active_after_compile := active_after_compile e;
     image_file := i; ticks := ticks e |}.

(** A 2x1 image of three channels, and a host that has it and runs one
    iteration before Escape. *)
Definition small_image : Image :=
  {| img_width := 2; img_height := 1; img_channels := 3;
     img_pixels := repeat Byte.x00 6 |}.

Definition textured_host : Env := with_image escape_host (Some small_image).

(** The same host when nobody closes the window: two quiet iterations, and
    the script ends with the loop still running. *)
Definition open_host : Env := with_ticks textured_host [quiet_tick; quiet_tick].

(** *** State along the loop *)

(** What one iteration does to the GL state: texture, program and vertex
    array are bound, nothing else moves. *)
Definition bound_for_draw (ID VAO texture : GLuint) (g : GL) : GL :=
  bind_vertex_array VAO (use_program (Some ID) (bind_texture texture g)).

(** The GL state when the loop stops, after no iteration or after some. *)
Definition gl_after_loop (e : Env) : GL :=
  match ticks e with
  | [] => gl (world_at_loop e)
  | _ :: _ => bound_for_draw (program_name e) 1 1 (gl (world_at_loop e))
  end.

(** What lines 505-507 do to the GL state. *)
Definition released (g : GL) : GL :=
  drop_object (Buffer 2) (drop_object (Buffer 1) (drop_object (VertexArray 1) g)).

End Survey.

(** ** Facts about the GLM functions *)

Module GlmFacts.

Import Ieee Glm.
Local Open Scope R_scope.

(** Seven digits of pi, from Machin's formula with 1/3 and 1/7. *)
Lemma PI_7_digits : 3.1415926 < PI < 3.1415927.
Proof.
  pose proof (PI_2_3_7_ineq 4) as [Hlo Hhi].
  unfold sum_f_R0, tg_alt, PI_2_3_7_tg, Ratan_seq in Hlo, Hhi.
  cbv [Nat.mul Nat.add] in Hlo, Hhi.
  repeat rewrite INR_IZR_INZ in Hlo. repeat rewrite INR_IZR_INZ in Hhi.
  cbv [Z.of_nat Pos.of_succ_nat Pos.succ pow] in Hlo, Hhi.
  split; lra.
Qed.

(** The constant of [radians32] is within half a unit in the last place,
    2^-30, of the decimal constant in GLM. *)
Lemma degrees_to_radians_rounds :
  Rabs (real_of degrees_to_radians - 0.01745329251994329576923690768489)
  <= 1 / 1073741824.
Proof.
  unfold degrees_to_radians, real_of.
  change (Z.pow_pos 2 29) with 536870912%Z.
  apply Rabs_le. lra.
Qed.

Lemma vec4_eq a b c d a' b' c' d' :
  a = a' -> b = b' -> c = c' -> d = d' -> Vec4 a b c d = Vec4 a' b' c' d'.
Proof. intros; subst; reflexivity. Qed.

Ltac mat4_fields :=
  unfold vadd, vscale; cbn [x4 y4 z4 w4 x3 y3 z3 col0 col1 col2 col3];
  f_equal; apply vec4_eq.

Lemma inversesqrt_1 : inversesqrt (0 * 0 + 0 * 0 + 1 * 1) = 1.
Proof.
  unfold inversesqrt.
  replace (0 * 0 + 0 * 0 + 1 * 1) with 1 by ring.
  rewrite sqrt_1. field.
Qed.

Lemma inversesqrt_1' : inversesqrt (1 * 1 + 0 * 0 + 0 * 0) = 1.
Proof.
  unfold inversesqrt.
  replace (1 * 1 + 0 * 0 + 0 * 0) with 1 by ring.
  rewrite sqrt_1. field.
Qed.

Lemma rotate_identity_z theta :
  rotate identity theta (Vec3 0 0 1) = rotation_z theta.
Proof.
  unfold rotate, normalize, dot3, identity, mat4_diag, rotation_z.
  cbn [x3 y3 z3]. rewrite inversesqrt_1.
  mat4_fields; ring.
Qed.

Lemma rotate_identity_x theta :
  rotate identity theta (Vec3 1 0 0) = rotation_x theta.
Proof.
  unfold rotate, normalize, dot3, identity, mat4_diag, rotation_x.
  cbn [x3 y3 z3]. rewrite inversesqrt_1'.
  mat4_fields; ring.
Qed.

Lemma translate_identity v :
  translate identity v = Mat4 (Vec4 1 0 0 0) (Vec4 0 1 0 0) (Vec4 0 0 1 0)
                              (Vec4 (x3 v) (y3 v) (z3 v) 1).
Proof.
  unfold translate, identity, mat4_diag.
  mat4_fields; ring.
Qed.

Lemma rotation_z_0 : rotation_z 0 = identity.
Proof.
  unfold rotation_z, identity, mat4_diag.
  rewrite cos_0, sin_0. f_equal; apply vec4_eq; ring.
Qed.

Lemma tan_half_45_pos : 0 < tan (radians 45 / 2).
Proof.
  unfold radians. apply tan_gt_0.
  - pose proof PI_RGT_0. lra.
  - pose proof PI_RGT_0. lra.
Qed.

Lemma aspect_term_perspective fovy aspect n f :
  tan (fovy / 2) <> 0 -> aspect <> 0 ->
  aspect_term (perspective fovy aspect n f) = aspect.
Proof.
  intros Ht Ha. unfold aspect_term, perspective. cbn [x4 y4 col0 col1].
  field. split; assumption.
Qed.

Lemma sin_abs_le_pos x : 0 <= x -> Rabs (sin x) <= x.
Proof.
  intros Hx. destruct (Req_dec x 0) as [->|Hne].
  - rewrite sin_0, Rabs_R0. lra.
  - assert (Hpos : 0 < x) by lra.
    pose proof (sin_lt_x x Hpos) as Hub.
    apply Rabs_le. split; [|lra].
    destruct (Rle_dec x PI) as [Hle|Hgt].
    + pose proof (sin_ge_0 x Hx Hle). lra.
    + pose proof (SIN_bound x). pose proof PI_RGT_0. pose proof PI2_1.
      unfold PI2 in *. lra.
Qed.

Lemma sin_abs_le x : Rabs (sin x) <= Rabs x.
Proof.
  destruct (Rle_dec 0 x) as [Hx|Hx].
  - rewrite (Rabs_right x) by lra. apply sin_abs_le_pos; lra.
  - rewrite <- (Rabs_Ropp (sin x)), <- sin_neg.
    rewrite (Rabs_left x) by lra. apply sin_abs_le_pos; lra.
Qed.

Lemma one_minus_cos_abs_le x : Rabs (1 - cos x) <= Rabs x.
Proof.
  replace x with (2 * (x / 2)) at 1 by field.
  rewrite cos_2a_sin.
  replace (1 - (1 - 2 * sin (x / 2) * sin (x / 2)))
    with (2 * (sin (x / 2) * sin (x / 2))) by ring.
  rewrite Rabs_mult, Rabs_mult, (Rabs_right 2) by lra.
  pose proof (sin_abs_le (x / 2)) as H1.
  pose proof (SIN_bound (x / 2)) as H2.
  assert (H3 : Rabs (sin (x / 2)) <= 1) by (apply Rabs_le; lra).
  pose proof (Rabs_pos (sin (x / 2))) as H4.
  replace (Rabs x) with (2 * Rabs (x / 2)).
  2: { unfold Rdiv. rewrite Rabs_mult, (Rabs_right (/ 2)) by lra. lra. }
  nra.
Qed.

(** An angle within [eps] of a half turn gives a matrix within [eps] of the
    half turn, entry by entry. *)
Lemma rotation_z_near_half_turn theta eps :
  Rabs (theta - PI) <= eps -> mat4_close eps (rotation_z theta) half_turn_z.
Proof.
  intros Hnear.
  assert (Heps : 0 <= eps) by (pose proof (Rabs_pos (theta - PI)); lra).
  assert (Hzero : Rabs 0 <= eps) by (rewrite Rabs_R0; exact Heps).
  assert (Hcos : Rabs (cos theta - -1) <= eps).
  { replace theta with ((theta - PI) + PI) by ring. rewrite neg_cos.
    replace (- cos (theta - PI) - -1) with (1 - cos (theta - PI)) by ring.
    pose proof (one_minus_cos_abs_le (theta - PI)). lra. }
  assert (Hsin : Rabs (sin theta) <= eps).
  { replace theta with ((theta - PI) + PI) by ring. rewrite neg_sin, Rabs_Ropp.
    pose proof (sin_abs_le (theta - PI)). lra. }
  unfold mat4_close, vec4_close, rotation_z, half_turn_z.
  cbn [x4 y4 z4 w4 col0 col1 col2 col3].
  replace (sin theta - 0) with (sin theta) by ring.
  replace (- sin theta - 0) with (- sin theta) by ring.
  replace (0 - 0) with 0 by ring. replace (1 - 1) with 0 by ring.
  rewrite Rabs_Ropp.
  repeat split; assumption.
Qed.

Lemma abs_le_bounds x y : Rabs x <= y -> - y <= x <= y.
Proof. intros H. unfold Rabs in H. destruct (Rcase_abs x); lra. Qed.

(** Two rotations about Z whose angles differ by something between a
    twelfth and a half of a turn differ by more than a tenth in some
    entry. *)
Lemma rotation_z_apart a b :
  PI / 6 <= b - a <= PI -> ~ mat4_close (1 / 10) (rotation_z a) (rotation_z b).
Proof.
  intros [Hlo Hhi] Hclose.
  destruct Hclose as ((Hc & Hs & _) & _).
  cbn [x4 y4 col0 rotation_z] in Hc, Hs.
  apply abs_le_bounds in Hc. apply abs_le_bounds in Hs.
  pose proof PI_RGT_0 as Hpi.
  assert (Hcos : cos (b - a) <= cos (PI / 6)).
  { apply cos_decr_1; lra. }
  rewrite cos_PI6, cos_minus in Hcos.
  assert (Hr : sqrt 3 <= 174 / 100).
  { apply Rsqr_incr_0_var; [|lra].
    rewrite Rsqr_sqrt by lra. unfold Rsqr. lra. }
  pose proof (sin2_cos2 a) as Ha. pose proof (sin2_cos2 b) as Hb.
  unfold Rsqr in Ha, Hb.
  nra.
Qed.

End GlmFacts.

(** ** Facts about the angle of the spin *)

Module SpinFacts.

Import Ieee Glm Host Program Observe GlmFacts.
Local Open Scope R_scope.

Lemma frame_trans_is_rotation_z t :
  frame_trans t = rotation_z (real_of (spin_angle t)).
Proof.
  unfold frame_trans. change (mat4_diag 1) with identity. apply rotate_identity_z.
Qed.

(** At time 0: 0 degrees, 0 radians. *)
Lemma spin_angle_0 : spin_angle (double_of_Z 0) = S754_zero false.
Proof. reflexivity. Qed.

(** At 3.6 seconds the cast gives 3.5999999046325684, the product with 50
    is 180 exactly, and [radians32] gives 13176795 * 2^-22, which is
    3.1415927410125732. *)
Lemma seconds_3_6_next_to_3_6 :
  Rabs (real_of seconds_3_6 - 3.6) <= 1 / 4503599627370496.
Proof.
  unfold seconds_3_6, real_of.
  change (Z.pow_pos 2 51) with 2251799813685248%Z.
  apply Rabs_le. lra.
Qed.

Lemma spin_degrees_3_6 : spin_degrees seconds_3_6 = float32_of_Z 180.
Proof. vm_compute. reflexivity. Qed.

Lemma spin_angle_3_6 :
  spin_angle seconds_3_6 = S754_finite false 13176795 (-22).
Proof. vm_compute. reflexivity. Qed.

Lemma spin_angle_3_6_near_PI :
  Rabs (real_of (spin_angle seconds_3_6) - PI) <= 1 / 1000000.
Proof.
  rewrite spin_angle_3_6. unfold real_of.
  change (Z.pow_pos 2 22) with 4194304%Z.
  pose proof PI_7_digits. apply Rabs_le. lra.
Qed.

(** At 16777217 seconds the cast gives 16777216, the product 838860800
    degrees, and [radians32] 14640883 radians. *)
Lemma real_of_seconds_16777217 : real_of seconds_16777217 = 16777217.
Proof.
  change seconds_16777217 with (S754_finite false 4503599895805952 (-28)).
  unfold real_of. change (Z.pow_pos 2 28) with 268435456%Z. lra.
Qed.

Lemma to_float32_16777217 :
  to_float32 seconds_16777217 = float32_of_Z 16777216.
Proof. vm_compute. reflexivity. Qed.

Lemma spin_degrees_16777217 :
  spin_degrees seconds_16777217 = float32_of_Z 838860800.
Proof. vm_compute. reflexivity. Qed.

Lemma spin_angle_16777217 :
  spin_angle seconds_16777217 = S754_finite false 14640883 0.
Proof. vm_compute. reflexivity. Qed.

Lemma real_of_spin_angle_16777217 :
  real_of (spin_angle seconds_16777217) = 14640883.
Proof. rewrite spin_angle_16777217. reflexivity. Qed.

End SpinFacts.

(** ** Facts about a run *)

Module RunFacts.

Import Ieee Glm Host Program Observe.
Local Open Scope string_scope.
Local Open Scope list_scope.
Local Open Scope Z_scope.

Lemma bind_run {A B} (m : M A) (k : A -> M B) w :
  bind m k w = k (fst (m w)) (snd (m w)).
Proof. unfold bind. destruct (m w); reflexivity. Qed.

Lemma deliver_spec evs : forall w,
  resize_callback w = true ->
  let w' := snd (deliver framebuffer_size_callback evs w) in
  calls w' = calls w ++ poll_calls evs /\
  should_close w' = should_close w || existsb is_close evs /\
  Kept w w'.
Proof.
  induction evs as [|ev evs IH]; intros w Hcb.
  - cbn. rewrite app_nil_r, orb_false_r. repeat split.
  - destruct ev as [width height|]; cbn [deliver]; rewrite !bind_run;
      cbn [modify fst snd gets].
    + cbn [with_framebuffer resize_callback]. rewrite Hcb. cbn [when].
      match goal with |- context [deliver _ evs ?w1] =>
        destruct (IH w1 Hcb) as (Hcalls & Hclose & [H1 H2 H3 H4]) end.
      cbn in *.
      split. { rewrite Hcalls. rewrite <- app_assoc. reflexivity. }
      split. { exact Hclose. }
      constructor; assumption.
    + destruct (IH (with_should_close true w) Hcb)
        as (Hcalls & Hclose & [H1 H2 H3 H4]).
      cbn in *.
      split. { exact Hcalls. }
      split. { rewrite Hclose. rewrite orb_true_r. reflexivity. }
      constructor; assumption.
Qed.

Lemma fetch_ready g VAO ebo :
  vertex_array_binding g = VAO ->
  lookup VAO (element_bindings g) = Some ebo ->
  lookup ebo (buffers g) = Some (UInts indices) ->
  fetch_indices g 6 0 = indices.
Proof.
  intros Hv He Hb. unfold fetch_indices. rewrite Hv, He, Hb. reflexivity.
Qed.

(** Run the straight-line part of an iteration on an explicit world. *)
Ltac run_ops :=
  cbv beta iota zeta delta
    [frame processInput glfwPollEvents glfwPollEvents_with bind ret gets modify
     emit when glfwGetKey is_press glfwSetWindowShouldClose glClearColor glClear
     glBindTexture glfwGetTime glGetUniformLocation glUniformMatrix4fv
     Shader_use Shader_getProgram glUniform1f glBindVertexArray glDrawElements
     glfwSwapBuffers glfwWindowShouldClose
     with_calls with_now with_should_close with_gl
     host now calls glfw_live resize_callback should_close framebuffer gl
     key_escape clock polled bind_texture use_program bind_vertex_array
     vertex_array_binding array_buffer_binding element_bindings buffers
     texture_binding textures program objects].

Lemma frame_spec ID VAO tex w tk :
  Ready VAO w ->
  let w' := snd (frame ID VAO tex (with_now tk w)) in
  calls w' = calls w ++ frame_calls ID VAO tex (program (gl w)) tk /\
  should_close w' = should_close w || tick_closes tk /\
  Ready VAO w' /\
  program (gl w') = Some ID /\
  host w' = host w /\
  glfw_live w' = glfw_live w /\
  objects (gl w') = objects (gl w) /\
  textures (gl w') = textures (gl w).
Proof.
  intros [Hcb (ebo & He & Hb)].
  destruct w as [h n cs live cb sc fb g]. destruct tk as [key clk evs].
  destruct g as [vab abb eb bufs tb texs prog objs].
  cbn in Hcb, He, Hb. subst cb.
  intros w'. subst w'.
  set (r := frame ID VAO tex _).
  assert (Hr : exists W0,
     r = deliver framebuffer_size_callback evs W0 /\
     calls W0 =
       cs ++ [Call_glfwGetKey GLFW_KEY_ESCAPE] ++
       (if key then [Call_glfwSetWindowShouldClose true] else []) ++
       [ Call_glClearColor 0.2 0.3 0.3 1;
         Call_glClear GL_COLOR_BUFFER_BIT;
         Call_glBindTexture GL_TEXTURE_2D tex;
         Call_glfwGetTime;
         Call_glGetUniformLocation ID "model";
         Call_glGetUniformLocation ID "view";
         Call_glGetUniformLocation ID "projection";
         Call_glUniformMatrix4fv (uniform ID "model") 1 GL_FALSE frame_model prog;
         Call_glUniformMatrix4fv (uniform ID "view") 1 GL_FALSE frame_view prog;
         Call_glUniformMatrix4fv (uniform ID "projection") 1 GL_FALSE
           frame_projection prog;
         Call_Shader_use ID;
         Call_glGetUniformLocation ID "time";
         Call_glGetUniformLocation ID "transform";
         Call_glUniformMatrix4fv (uniform ID "transform") 1 GL_FALSE
           (frame_trans (hd (S754_zero false) clk)) (Some ID);
         Call_glfwGetTime;
         Call_glUniform1f (uniform ID "time")
           (to_float32 (hd (S754_zero false) (tl clk))) (Some ID);
         Call_glBindVertexArray VAO;
         Call_glDrawElements GL_TRIANGLES 6 GL_UNSIGNED_INT 0 indices;
         Call_glfwSwapBuffers;
         Call_glfwPollEvents ] /\
     should_close W0 = sc || key /\
     resize_callback W0 = true /\ host W0 = h /\ glfw_live W0 = live /\
     gl W0 = {| vertex_array_binding := VAO; array_buffer_binding := abb;
                element_bindings := eb; buffers := bufs; texture_binding := tex;
                textures := texs; program := Some ID; objects := objs |}).
  { subst r. destruct key; run_ops; eexists; (split; [reflexivity|]);
    cbn [calls should_close resize_callback host glfw_live gl];
    (erewrite (@fetch_ready _ VAO ebo); [ | reflexivity | exact He | exact Hb ]);
    rewrite ?orb_true_r, ?orb_false_r;
    repeat split; cbn [app]; repeat rewrite <- app_assoc; reflexivity. }
  destruct Hr as (W0 & -> & Hc0 & Hs0 & Hcb0 & Hh0 & Hl0 & Hg0).
  destruct (deliver_spec evs W0 Hcb0) as (Hc & Hs & [K1 K2 K3 K4]).
  cbn [calls gl program objects textures should_close host glfw_live].
  rewrite Hc, Hs, Hc0, Hs0, K1, K2, K4, Hh0, Hl0, Hg0.
  unfold frame_calls, tick_closes, first_time, second_time, Ready.
  cbn [key_escape clock polled program objects textures element_bindings buffers].
  rewrite K3, K4, Hg0. cbn [element_bindings buffers].
  repeat split; try reflexivity.
  - rewrite <- !app_assoc. reflexivity.
  - rewrite orb_assoc. reflexivity.
  - assumption.
  - exists ebo; split; assumption.
Qed.

Lemma render_loop_step ID VAO tex script w :
  render_loop ID VAO tex script w =
  let w1 := with_calls (fun l => l ++ [Call_glfwWindowShouldClose]) w in
  if should_close w then (true, w1)
  else
    match script with
    | [] => (false, w1)
    | tk :: rest =>
        render_loop ID VAO tex rest (snd (frame ID VAO tex (with_now tk w1)))
    end.
Proof.
  destruct script as [|tk rest]; cbn [render_loop]; rewrite bind_run;
    cbn [glfwWindowShouldClose emit modify gets bind fst snd];
    change (should_close (with_calls _ w)) with (should_close w);
    destruct (should_close w); try reflexivity.
  rewrite !bind_run. reflexivity.
Qed.

(** The loop, by induction on the script of the host. *)
Lemma render_loop_spec ID VAO tex script : forall w,
  Ready VAO w ->
  let r := render_loop ID VAO tex script w in
  fst r = should_close w || closes script /\
  calls (snd r) =
    calls w ++ loop_calls ID VAO tex (should_close w) (program (gl w)) script /\
  host (snd r) = host w /\
  glfw_live (snd r) = glfw_live w /\
  objects (gl (snd r)) = objects (gl w) /\
  textures (gl (snd r)) = textures (gl w).
Proof.
  induction script as [|tk rest IH]; intros w Hready r; subst r;
    rewrite render_loop_step; cbv zeta.
  - destruct (should_close w); cbn; repeat split; reflexivity.
  - destruct (should_close w) eqn:Hsc.
    + cbn. repeat split; reflexivity.
    + set (w1 := with_calls _ w).
      assert (Hready1 : Ready VAO w1) by exact Hready.
      destruct (frame_spec ID tex tk Hready1)
        as (Hc & Hs & Hr & Hp & Hh & Hl & Ho & Ht).
      destruct (IH _ Hr) as (Hb & Hc' & Hh' & Hl' & Ho' & Ht').
      rewrite Hb, Hc', Hh', Hl', Ho', Ht', Hc, Hs, Hp, Hh, Hl, Ho, Ht.
      subst w1. cbn [calls with_calls should_close host glfw_live gl].
      rewrite Hsc. cbn [orb closes existsb loop_calls].
      repeat split; try reflexivity.
      rewrite <- !app_assoc. reflexivity.
Qed.

Lemma main_reaches_loop e :
  window_opens e = true -> loader_succeeds e = true ->
  main (boot e) =
  let (left, w) := render_loop (program_name e) 1 1 (ticks e) (world_at_loop e) in
  after_loop left w.
Proof.
  destruct e as [ap wo lo ID act img script]. cbn [window_opens loader_succeeds].
  intros -> ->.
  destruct ap, img as [image|]; reflexivity.
Qed.

Lemma world_at_loop_ready e : Ready 1 (world_at_loop e).
Proof. split; [reflexivity | exists 2; split; reflexivity]. Qed.

(** The whole run: its calls, its outcome, and what is left of GLFW and of
    the GL objects at the end. *)
Lemma run_spec e :
  trace e = run_calls e /\
  outcome e = run_outcome e /\
  glfw_live (snd (run e)) =
    (window_opens e && (negb (loader_succeeds e) || negb (closes (ticks e)))) /\
  objects (gl (snd (run e))) =
    (if initialised e then
       if closes (ticks e)
       then [ShaderProgram (program_name e); Texture 1]
       else [ShaderProgram (program_name e); VertexArray 1; Buffer 1; Buffer 2;
             Texture 1]
     else []).
Proof.
  unfold trace, outcome, run_outcome, run_calls, initialised, run.
  destruct (window_opens e) eqn:Hw; [destruct (loader_succeeds e) eqn:Hl|].
  - rewrite (main_reaches_loop e Hw Hl).
    pose proof (render_loop_spec (program_name e) 1 (ticks e)
                  (world_at_loop_ready e)) as H.
    destruct (render_loop _ _ _ _ _) as [left w'].
    destruct H as (Hb & Hc & Hh & Hlv & Ho & Ht).
    destruct w' as [h' n' cs' l' cb' sc' fb' g'].
    destruct g' as [vab abb eb bufs tb texs prog objs].
    cbn [fst snd calls host glfw_live gl objects textures should_close program
         world_at_loop orb] in Hb, Hc, Hh, Hlv, Ho, Ht.
    subst left cs' h' l' objs texs.
    destruct (closes (ticks e));
      cbn -[window_calls loader_calls setup_calls loop_calls shutdown_calls app];
      repeat split; try reflexivity.
    all: rewrite <- ?app_assoc, ?app_nil_r; reflexivity.
  - destruct e as [ap wo lo ID act img script]. cbn in Hw, Hl. subst wo lo.
    destruct ap; repeat split; reflexivity.
  - destruct e as [ap wo lo ID act img script]. cbn in Hw. subst wo.
    destruct ap; repeat split; reflexivity.
Qed.

Lemma trace_is_run_calls e : trace e = run_calls e.
Proof. exact (proj1 (run_spec e)). Qed.

Lemma outcome_is_run_outcome e : outcome e = run_outcome e.
Proof. exact (proj1 (proj2 (run_spec e))). Qed.

End RunFacts.

(** ** Collecting over a run *)

Module Collect.

Import Ieee Glm Host Program Observe RunFacts.
Local Open Scope string_scope.
Local Open Scope list_scope.
Local Open Scope Z_scope.

Section Collecting.

Variable B : Type.
Variable g : Call -> list B.
Variable part : GLuint -> option GLuint -> Tick -> list B.

Hypothesis g_frame : forall ID in_use tk,
  flat_map g (frame_calls ID 1 1 in_use tk) ++ g Call_glfwWindowShouldClose =
  part ID in_use tk.

Lemma collect_loop ID : forall script in_use,
  flat_map g (loop_calls ID 1 1 false in_use script) =
  g Call_glfwWindowShouldClose ++
  per_frame ID (part ID) in_use (executed script).
Proof.
  induction script as [|tk rest IH]; intros in_use.
  - reflexivity.
  - cbn [loop_calls executed per_frame flat_map].
    rewrite flat_map_app, <- g_frame. f_equal. rewrite <- app_assoc. f_equal.
    destruct (tick_closes tk).
    + destruct rest; cbn; rewrite !app_nil_r; reflexivity.
    + apply IH.
Qed.

Lemma collect_run e :
  flat_map g (trace e) =
  flat_map g (window_calls e) ++
  (if negb (window_opens e)
   then flat_map g [Call_cout "Failed to create GLFW window"; Call_glfwTerminate]
   else
     flat_map g loader_calls ++
     (if negb (loader_succeeds e)
      then flat_map g [Call_cout "Failed to initialize GLAD"]
      else
        flat_map g (setup_calls e) ++
        g Call_glfwWindowShouldClose ++
        per_frame (program_name e) (part (program_name e))
          (active_after_compile e) (executed (ticks e)) ++
        (if closes (ticks e) then flat_map g shutdown_calls else []))).
Proof.
  rewrite trace_is_run_calls. unfold run_calls.
  destruct (window_opens e), (loader_succeeds e), (closes (ticks e));
    cbn [negb]; rewrite ?flat_map_app, ?collect_loop, <- ?app_assoc;
    reflexivity.
Qed.

End Collecting.

Lemma collect_poll {B} (g : Call -> list B) evs :
  (forall x y w h, g (Call_glViewport x y w h) = []) ->
  flat_map g (poll_calls evs) = [].
Proof.
  intros Hv. induction evs as [|[w h|] evs IH]; cbn; rewrite ?Hv; auto.
Qed.

Lemma per_frame_flat_map {B} ID (f : Tick -> list B) l : forall in_use,
  per_frame ID (fun _ tk => f tk) in_use l = flat_map f l.
Proof.
  induction l as [|tk rest IH]; intros in_use; cbn; [|rewrite IH]; reflexivity.
Qed.

Lemma flat_map_singleton {A B} (f : A -> B) l :
  flat_map (fun a => [f a]) l = map f l.
Proof. induction l; cbn; [|f_equal]; auto. Qed.

Lemma filter_flat_map {A} (q : A -> bool) l :
  filter q l = flat_map (fun a => if q a then [a] else []) l.
Proof.
  induction l as [|a l IH]; cbn; [reflexivity|].
  rewrite IH. destruct (q a); reflexivity.
Qed.

(** The part of one iteration, for a projection that ignores [glViewport]. *)
Ltac frame_part :=
  intros; unfold frame_calls; rewrite !flat_map_app;
  rewrite collect_poll by reflexivity;
  match goal with |- context [key_escape ?tk] => destruct (key_escape tk) end;
  reflexivity.

Lemma flat_map_nil {A B} (l : list A) : flat_map (fun _ => @nil B) l = [].
Proof. induction l; auto. Qed.

Lemma uploads_to_run name (f : Tick -> list mat4) e :
  (forall ID in_use tk,
     uploads_to name (frame_calls ID 1 1 in_use tk) = f tk) ->
  uploads_to name (trace e) = flat_map f (frames e).
Proof.
  intros Hf. unfold uploads_to in *.
  rewrite (collect_run _ (fun _ _ tk => f tk)).
  2: { intros. cbn [app]. rewrite app_nil_r. apply Hf. }
  rewrite per_frame_flat_map.
  unfold frames, initialised, window_calls, hint_calls, setup_calls.
  destruct (window_opens e), (loader_succeeds e), (apple e), (image_file e),
    (closes (ticks e)); cbn [negb andb]; cbn; rewrite ?app_nil_r; reflexivity.
Qed.

Lemma transform_uploads e :
  uploads_to "transform" (trace e) =
  map (fun tk => frame_trans (first_time tk)) (frames e).
Proof.
  rewrite <- flat_map_singleton. apply uploads_to_run. 
  unfold uploads_to. frame_part.
Qed.

Lemma model_uploads e :
  uploads_to "model" (trace e) = map (fun _ => frame_model) (frames e).
Proof.
  rewrite <- flat_map_singleton. apply uploads_to_run.
  unfold uploads_to. frame_part.
Qed.

Lemma view_uploads e :
  uploads_to "view" (trace e) = map (fun _ => frame_view) (frames e).
Proof.
  rewrite <- flat_map_singleton. apply uploads_to_run.
  unfold uploads_to. frame_part.
Qed.

Lemma projection_uploads e :
  uploads_to "projection" (trace e) = map (fun _ => frame_projection) (frames e).
Proof.
  rewrite <- flat_map_singleton. apply uploads_to_run.
  unfold uploads_to. frame_part.
Qed.

(** Split a run along the answers of the host. *)
Ltac by_path e :=
  unfold frames, initialised, window_calls, hint_calls, loader_calls,
    setup_calls, shutdown_calls;
  destruct (window_opens e), (loader_succeeds e), (apple e), (image_file e),
    (closes (ticks e)); cbn [negb andb]; cbn; rewrite ?app_nil_r;
  try reflexivity.

Lemma draws_run e :
  draws (trace e) = map (fun _ => (GL_TRIANGLES, 6, indices)) (frames e).
Proof.
  rewrite <- flat_map_singleton. unfold draws.
  rewrite (collect_run _ (fun _ _ _ => [(GL_TRIANGLES, 6, indices)]));
    [|frame_part].
  rewrite per_frame_flat_map. by_path e.
Qed.

Lemma per_frame_upload_log ID l : forall in_use,
  per_frame ID (fun p _ => frame_upload_log ID p ++ [LoopTest]) in_use l =
  loop_upload_log ID in_use (List.length l).
Proof.
  induction l as [|tk rest IH]; intros in_use; cbn [per_frame loop_upload_log
    List.length]; [|rewrite IH, <- app_assoc]; reflexivity.
Qed.

Lemma upload_log_run e :
  upload_log (trace e) =
  (if initialised e then [LoopTest] else []) ++
  loop_upload_log (program_name e) (active_after_compile e)
    (List.length (frames e)).
Proof.
  unfold upload_log.
  rewrite (collect_run _ (fun ID p _ => frame_upload_log ID p ++ [LoopTest]));
    [|frame_part].
  rewrite per_frame_upload_log. by_path e.
Qed.

Lemma cerr_lines_run e : cerr_lines (trace e) = [].
Proof.
  unfold cerr_lines.
  rewrite (collect_run _ (fun _ _ _ => [])); [|frame_part].
  rewrite per_frame_flat_map, flat_map_nil. by_path e.
Qed.

Lemma cout_lines_run e :
  cout_lines (trace e) =
  if negb (window_opens e) then ["Failed to create GLFW window"]
  else if negb (loader_succeeds e) then ["Failed to initialize GLAD"]
  else match image_file e with
       | Some _ => []
       | None => ["Failed to load texture"]
       end.
Proof.
  unfold cout_lines.
  rewrite (collect_run _ (fun _ _ _ => [])); [|frame_part].
  rewrite per_frame_flat_map, flat_map_nil. by_path e.
Qed.

Lemma per_frame_length {B} ID (part : option GLuint -> Tick -> list B) n :
  (forall p tk, List.length (part p tk) = n) ->
  forall l p, List.length (per_frame ID part p l) = (n * List.length l)%nat.
Proof.
  intros Hn. induction l as [|tk rest IH]; intros p; cbn [per_frame List.length].
  - lia.
  - rewrite length_app, Hn, IH. lia.
Qed.

(** Counting the calls that satisfy [q], when every iteration has [n]. *)
Lemma count_run (q : Call -> bool) (n : nat) e :
  q Call_glfwWindowShouldClose = false ->
  (forall ID p tk, count_calls q (frame_calls ID 1 1 p tk) = n) ->
  count_calls q (trace e) =
  (count_calls q (window_calls e) +
   (if negb (window_opens e)
    then count_calls q
           [Call_cout "Failed to create GLFW window"; Call_glfwTerminate]
    else
      count_calls q loader_calls +
      (if negb (loader_succeeds e)
       then count_calls q [Call_cout "Failed to initialize GLAD"]
       else
         count_calls q (setup_calls e) +
         n * List.length (executed (ticks e)) +
         (if closes (ticks e) then count_calls q shutdown_calls else 0))))%nat.
Proof.
  intros Hq Hn. unfold count_calls in *.
  rewrite !filter_flat_map.
  rewrite (collect_run _
             (fun ID p tk => flat_map (fun c => if q c then [c] else [])
                               (frame_calls ID 1 1 p tk))).
  - assert (Hlen : forall l p,
      List.length
        (per_frame (program_name e)
           (fun p tk => flat_map (fun c => if q c then [c] else [])
                          (frame_calls (program_name e) 1 1 p tk)) p l) =
      (n * List.length l)%nat).
    { apply per_frame_length. intros p tk. rewrite <- filter_flat_map. apply Hn. }
    rewrite Hq. rewrite <- !filter_flat_map.
    destruct (window_opens e), (loader_succeeds e), (closes (ticks e));
      cbn [negb]; rewrite ?length_app, ?Hlen; cbn [List.length]; lia.
  - intros. rewrite Hq. apply app_nil_r.
Qed.

Ltac frame_count :=
  intros; unfold count_calls, frame_calls; rewrite !filter_app;
  rewrite (filter_flat_map _ (poll_calls _)), collect_poll by reflexivity;
  match goal with |- context [key_escape ?tk] => destruct (key_escape tk) end;
  reflexivity.

Lemma swaps_run e :
  count_calls is_glfwSwapBuffers (trace e) = List.length (frames e).
Proof.
  rewrite (@count_run _ 1%nat e eq_refl) by frame_count.
  by_path e; lia.
Qed.

Lemma draw_count_run e :
  count_calls is_glDrawElements (trace e) = List.length (frames e).
Proof.
  rewrite (@count_run _ 1%nat e eq_refl) by frame_count.
  by_path e; lia.
Qed.

Lemma teximage_count_run e :
  count_calls is_glTexImage2D (trace e) =
  if initialised e then
    match image_file e with Some _ => 1%nat | None => 0%nat end
  else 0%nat.
Proof.
  rewrite (@count_run _ 0%nat e eq_refl) by frame_count.
  by_path e.
Qed.

Lemma mipmap_count_run e :
  count_calls is_glGenerateMipmap (trace e) =
  if initialised e then
    match image_file e with Some _ => 1%nat | None => 0%nat end
  else 0%nat.
Proof.
  rewrite (@count_run _ 0%nat e eq_refl) by frame_count.
  by_path e.
Qed.

(** No run ever issues [glDeleteTextures] or [glDeleteProgram]. *)
Lemma texture_never_released e n :
  count_calls (releases (Texture n)) (trace e) = 0%nat.
Proof.
  rewrite (@count_run _ 0%nat e eq_refl) by frame_count.
  by_path e.
Qed.

Lemma program_never_released e n :
  count_calls (releases (ShaderProgram n)) (trace e) = 0%nat.
Proof.
  rewrite (@count_run _ 0%nat e eq_refl) by frame_count.
  by_path e.
Qed.

End Collect.

(** ** The claims *)

Module Claims.

Import Ieee Glm Host Program Observe GlmFacts SpinFacts RunFacts Collect.
Local Open Scope string_scope.
Local Open Scope list_scope.
Local Open Scope Z_scope.

(** C1, on the code as it is.  Against [resized_host] the framebuffer is
    800x600 at the first upload of the projection and 1024x512 at the
    second, and both uploads carry the same matrix: its aspect term is
    800/600, it is not the perspective matrix for 1024/512, and so the
    sentence of the specification fails for this run. *)
Theorem projection_ignores_resize :
  projections (0, 0) (trace resized_host) =
    [ (800, 600, frame_projection); (1024, 512, frame_projection) ] /\
  aspect_term frame_projection = (800 / 600)%R /\
  frame_projection <> perspective (radians 45) (1024 / 512) 0.1 100 /\
  ~ projection_follows_framebuffer resized_host.
Proof.
  assert (Hrun : projections (0, 0) (trace resized_host) =
            [ (800, 600, frame_projection); (1024, 512, frame_projection) ]).
  { rewrite trace_is_run_calls. reflexivity. }
  assert (Haspect : aspect_term frame_projection = (800 / 600)%R).
  { unfold frame_projection. apply aspect_term_perspective.
    - pose proof tan_half_45_pos. lra.
    - lra. }
  assert (Hne : frame_projection <>
                perspective (radians 45) (1024 / 512) 0.1 100).
  { intros Heq. apply (f_equal aspect_term) in Heq.
    rewrite Haspect in Heq.
    rewrite aspect_term_perspective in Heq.
    - lra.
    - pose proof tan_half_45_pos. lra.
    - lra. }
  repeat split; try assumption.
  unfold projection_follows_framebuffer. rewrite Hrun. intros HF.
  inversion HF as [|? ? _ Htail]; subst.
  inversion Htail as [|? ? Hsecond _]; subst.
  apply Hne. exact Hsecond.
Qed.

(** C2, on the code as it is.  Against [escape_host] [main] returns 0 after
    exactly one release call for the vertex array and for each of the two
    buffers, and none for the texture or for the shader program, which are
    the two objects no call has deleted when [main] returns. *)
Theorem texture_and_program_not_released :
  outcome escape_host = Exited 0 /\
  count_calls (releases (VertexArray 1)) (trace escape_host) = 1%nat /\
  count_calls (releases (Buffer 1)) (trace escape_host) = 1%nat /\
  count_calls (releases (Buffer 2)) (trace escape_host) = 1%nat /\
  count_calls (releases (Texture 1)) (trace escape_host) = 0%nat /\
  count_calls (releases (ShaderProgram 3)) (trace escape_host) = 0%nat /\
  objects (gl (snd (run escape_host))) = [ShaderProgram 3; Texture 1] /\
  ~ every_resource_released_once escape_host.
Proof.
  destruct (run_spec escape_host) as (Ht & Ho & _ & Hobj).
  rewrite Ht, Ho, Hobj.
  repeat split; try reflexivity.
  unfold every_resource_released_once. rewrite Ht. intros HF.
  inversion HF as [|? ? _ H1]; subst.
  inversion H1 as [|? ? _ H2]; subst.
  inversion H2 as [|? ? _ H3]; subst.
  inversion H3 as [|? ? Htex _]; subst.
  discriminate Htex.
Qed.

(** C3 as written fails: when the window cannot be created nothing at all
    is written to the standard error stream. *)
Lemma failure_not_reported_on_stderr : ~ reports_failure_on_stderr no_window_host.
Proof.
  unfold reports_failure_on_stderr. intros H.
  destruct (H eq_refl) as (Herr & _).
  apply Herr. apply cerr_lines_run.
Qed.

(** C3, amended: whenever initialisation fails (the window cannot be
    created, or the function pointers cannot be loaded) the one line of
    output goes to the standard output stream and nothing to the standard
    error stream; the message is the last call of the run but for the
    [glfwTerminate] of the window path; [main] returns -1; and there is one
    attempt to create the window and at most one to load the pointers. *)
Theorem failure_reported_on_stdout (e : Env) :
  initialised e = false ->
  cerr_lines (trace e) = [] /\
  cout_lines (trace e) =
    [if window_opens e then "Failed to initialize GLAD"
     else "Failed to create GLFW window"] /\
  trace e =
    (if window_opens e
     then window_calls e ++ loader_calls ++ [Call_cout "Failed to initialize GLAD"]
     else window_calls e ++
          [Call_cout "Failed to create GLFW window"; Call_glfwTerminate]) /\
  outcome e = Exited (-1) /\
  count_calls is_glfwCreateWindow (trace e) = 1%nat /\
  count_calls is_gladLoadGLLoader (trace e) =
    (if window_opens e then 1%nat else 0%nat).
Proof.
  intros Hinit. unfold initialised in Hinit.
  rewrite cerr_lines_run, cout_lines_run, outcome_is_run_outcome.
  rewrite trace_is_run_calls. unfold run_calls, run_outcome, window_calls,
    hint_calls, loader_calls.
  destruct (window_opens e), (loader_succeeds e); try discriminate Hinit;
    destruct (apple e); repeat split; reflexivity.
Qed.

(** The theorem at [no_loader_host]. *)
Lemma failure_reported_on_stdout_witness :
  initialised no_loader_host = false /\
  cout_lines (trace no_loader_host) = ["Failed to initialize GLAD"] /\
  outcome no_loader_host = Exited (-1).
Proof.
  split; [reflexivity|].
  pose proof (failure_reported_on_stdout no_loader_host eq_refl)
    as (_ & Hout & _ & Hexit & _).
  split; [exact Hout | exact Hexit].
Defined.

(** C4 as written fails once the clock has run for 16777217 seconds: the
    cast to [float] gives 16777216, the angle is 838860800 degrees and,
    through [radians32], 14640883 radians, and the matrix uploaded differs
    from the rotation by 16777217 x 50 degrees by more than a tenth in some
    entry. *)
Lemma spin_is_not_time_times_50 :
  ~ spin_is_time_times_50 (1 / 10) seconds_16777217.
Proof.
  unfold spin_is_time_times_50.
  rewrite frame_trans_is_rotation_z, rotate_identity_z.
  rewrite real_of_spin_angle_16777217, real_of_seconds_16777217.
  apply rotation_z_apart.
  unfold radians. pose proof PI_7_digits. lra.
Qed.

(** C4, amended: in every iteration the matrix uploaded as "transform" is
    the identity rotated about (0,0,1) by the angle that single precision
    gives: the reading of the clock cast to [float], times [50.0f], through
    [glm::radians]; for every reading with a finite angle this is the plane
    rotation about Z by that angle.  At time 0 it is the identity.  At 3.6
    seconds the degrees are exactly 180 and the matrix is the half turn
    about Z within a millionth in every entry.  At 16777217 seconds the
    degrees are 838860800 and the radians 14640883, not 16777217 x 50
    degrees. *)
Theorem spin_is_rotation_by_rounded_angle :
  (forall e,
     forallb spin_defined (frames e) = true ->
     uploads_to "transform" (trace e) =
     map (fun tk =>
            rotate identity
              (real_of (radians32 (fmul32 (to_float32 (first_time tk))
                                          (float32_of_Z 50))))
              (Vec3 0 0 1))
         (frames e)) /\
  (forall t : double,
     is_finite (spin_angle t) = true ->
     frame_trans t = rotation_z (real_of (spin_angle t))) /\
  frame_trans (double_of_Z 0) = identity /\
  ((Rabs (real_of seconds_3_6 - 3.6) <= 1 / 4503599627370496)%R /\
   spin_degrees seconds_3_6 = float32_of_Z 180 /\
   mat4_close (1 / 1000000) (frame_trans seconds_3_6) half_turn_z) /\
  (real_of seconds_16777217 = 16777217%R /\
   spin_degrees seconds_16777217 = float32_of_Z 838860800 /\
   real_of (spin_angle seconds_16777217) = 14640883%R).
Proof.
  split; [intros e _; exact (transform_uploads e)|].
  split; [intros t _; apply frame_trans_is_rotation_z|].
  split; [|split].
  - rewrite frame_trans_is_rotation_z, spin_angle_0. apply rotation_z_0.
  - split; [exact seconds_3_6_next_to_3_6|].
    split; [exact spin_degrees_3_6|].
    rewrite frame_trans_is_rotation_z.
    apply rotation_z_near_half_turn. exact spin_angle_3_6_near_PI.
  - split; [exact real_of_seconds_16777217|].
    split; [exact spin_degrees_16777217 | exact real_of_spin_angle_16777217].
Qed.

(** The theorem at [escape_host], whose readings are 0 and 1, and at 3.6
    seconds. *)
Lemma spin_is_rotation_by_rounded_angle_witness :
  (forallb spin_defined (frames escape_host) = true /\
   List.length (uploads_to "transform" (trace escape_host)) = 2%nat) /\
  (is_finite (spin_angle seconds_3_6) = true /\
   frame_trans seconds_3_6 = rotation_z (real_of (spin_angle seconds_3_6))).
Proof.
  split; (split; [reflexivity|]).
  - rewrite (proj1 spin_is_rotation_by_rounded_angle escape_host eq_refl).
    reflexivity.
  - exact (proj1 (proj2 spin_is_rotation_by_rounded_angle) seconds_3_6 eq_refl).
Defined.

(** C5: in every iteration of every run the matrix uploaded as "model" is
    the identity rotated by -55 degrees about (1,0,0) and the one uploaded
    as "view" is the identity translated by (0,0,-3), whatever the clock
    says; written out, a rotation about X and a matrix whose last column is
    (0,0,-3,1). *)
Theorem model_and_view_are_constant :
  (forall e,
     uploads_to "model" (trace e) =
       map (fun _ => rotate identity (radians (-55)) (Vec3 1 0 0)) (frames e) /\
     uploads_to "view" (trace e) =
       map (fun _ => translate identity (Vec3 0 0 (-3))) (frames e)) /\
  rotate identity (radians (-55)) (Vec3 1 0 0) = rotation_x (radians (-55)) /\
  translate identity (Vec3 0 0 (-3)) =
    Mat4 (Vec4 1 0 0 0) (Vec4 0 1 0 0) (Vec4 0 0 1 0) (Vec4 0 0 (-3) 1).
Proof.
  split; [intros e; split; [exact (model_uploads e) | exact (view_uploads e)]|].
  split; [apply rotate_identity_x | apply translate_identity].
Qed.

(** C6: [main] takes no argument.  It returns -1 when the window cannot be
    created and when the function pointers cannot be loaded; it returns 0
    when both succeed and the host raises the close flag at some tick; it
    returns nothing else; and it returns 0 only in that way. *)
Theorem exit_codes (e : Env) :
  (window_opens e = false -> outcome e = Exited (-1)) /\
  (window_opens e = true -> loader_succeeds e = false ->
   outcome e = Exited (-1)) /\
  (window_opens e = true -> loader_succeeds e = true ->
   closes (ticks e) = true -> outcome e = Exited 0) /\
  (forall status, outcome e = Exited status -> status = 0 \/ status = -1) /\
  (outcome e = Exited 0 ->
   window_opens e = true /\ loader_succeeds e = true /\
   closes (ticks e) = true) /\
  (outcome e = Running <-> initialised e = true /\ closes (ticks e) = false).
Proof.
  rewrite outcome_is_run_outcome. unfold run_outcome, initialised.
  destruct (window_opens e), (loader_succeeds e), (closes (ticks e));
    cbn [negb andb]; repeat split; intros; try discriminate; auto;
    try match goal with
        | H : Exited _ = Exited _ |- _ => inversion H; subst; auto
        | H : _ /\ _ |- _ => destruct H; discriminate
        end.
Qed.

(** The theorem at [escape_host]: a normal run returns 0. *)
Lemma exit_codes_witness :
  (window_opens escape_host = true /\ loader_succeeds escape_host = true /\
   closes (ticks escape_host) = true) /\
  outcome escape_host = Exited 0.
Proof.
  split; [repeat split|].
  exact (proj1 (proj2 (proj2 (exit_codes escape_host))) eq_refl eq_refl eq_refl).
Defined.

(** C7: when the window opens, the function pointers load and there is no
    decodable image, the one line logged is the warning; no texture image is
    specified and no mipmap generated; the loop runs over the same ticks as
    it would with an image; every iteration draws and presents exactly once;
    and [main] does not return -1: it returns 0 as soon as the host closes
    the window. *)
Theorem texture_failure_is_not_fatal (e : Env) :
  window_opens e = true -> loader_succeeds e = true -> image_file e = None ->
  cout_lines (trace e) = ["Failed to load texture"] /\
  count_calls is_glTexImage2D (trace e) = 0%nat /\
  count_calls is_glGenerateMipmap (trace e) = 0%nat /\
  frames e = executed (ticks e) /\
  draws (trace e) = map (fun _ => (GL_TRIANGLES, 6, indices)) (executed (ticks e)) /\
  count_calls is_glDrawElements (trace e) = List.length (executed (ticks e)) /\
  count_calls is_glfwSwapBuffers (trace e) = List.length (executed (ticks e)) /\
  outcome e = (if closes (ticks e) then Exited 0 else Running).
Proof.
  intros Hw Hl Hi.
  rewrite cout_lines_run, teximage_count_run, mipmap_count_run, draws_run,
    draw_count_run, swaps_run, outcome_is_run_outcome.
  unfold frames, initialised, run_outcome. rewrite Hw, Hl, Hi.
  repeat split; reflexivity.
Qed.

(** The theorem at [escape_host], which has no image: two iterations, two
    draws, status 0. *)
Lemma texture_failure_is_not_fatal_witness :
  (window_opens escape_host = true /\ loader_succeeds escape_host = true /\
   image_file escape_host = None) /\
  cout_lines (trace escape_host) = ["Failed to load texture"] /\
  count_calls is_glDrawElements (trace escape_host) = 2%nat /\
  outcome escape_host = Exited 0.
Proof.
  split; [repeat split|].
  pose proof (texture_failure_is_not_fatal escape_host eq_refl eq_refl eq_refl)
    as (Hlog & _ & _ & _ & _ & Hdraws & _ & Hexit).
  split; [exact Hlog|]. split; [exact Hdraws | exact Hexit].
Defined.

(** C8: [indices] has 6 entries, they are the triangles (0,1,3) and (1,2,3),
    each entry names one of the 32 / 8 = 4 vertices, every vertex is named,
    the 24 bytes uploaded to the element buffer are these 6 entries, and
    every draw of every run is of 6 indices as triangles and reads exactly
    these from the element buffer, once per iteration. *)
Theorem draw_issues_the_six_indices :
  List.length indices = 6%nat /\
  triangles indices = [(0, 1, 3); (1, 2, 3)] /\
  (List.length vertices / 8 = 4)%nat /\
  Forall (fun i => 0 <= i < Z.of_nat (List.length vertices / 8)) indices /\
  Forall (fun v => In v indices) [0; 1; 2; 3] /\
  sizeof_unsigned_int * Z.of_nat (List.length indices) = 24 /\
  (forall e,
     draws (trace e) = map (fun _ => (GL_TRIANGLES, 6, indices)) (frames e)).
Proof.
  split; [reflexivity|]. split; [reflexivity|]. split; [reflexivity|].
  split.
  { change (List.length vertices / 8)%nat with 4%nat.
    unfold indices. repeat (constructor; [lia|]). constructor. }
  split.
  { unfold indices. repeat (constructor; [cbn; tauto|]). constructor. }
  split; [reflexivity|].
  exact draws_run.
Qed.

(** C9: between two tests of the loop condition, that is in every
    iteration, the uniform uploads and the [use()] call come in this order:
    "model", "view", "projection", then [use()], then "transform" and
    "time".  The first three go to the program that was in
    use when the iteration began: in the first iteration whatever the host
    left in use after compiling the shader (possibly none), in the later
    ones the shader's own program; the last two always go to the shader's
    program. *)
Theorem uploads_around_use :
  (forall e,
     upload_log (trace e) =
     (if initialised e then [LoopTest] else []) ++
     loop_upload_log (program_name e) (active_after_compile e)
       (List.length (frames e))) /\
  (forall ID in_use n,
     loop_upload_log ID in_use (S n) =
     [ Upload "model" in_use; Upload "view" in_use; Upload "projection" in_use;
       Use ID;
       Upload "transform" (Some ID); Upload "time" (Some ID);
       LoopTest ] ++
     loop_upload_log ID (Some ID) n).
Proof.
  split; [exact upload_log_run | reflexivity].
Qed.

(** C10: when the window cannot be created the run ends with the message
    and then [glfwTerminate], and GLFW is terminated when [main] returns
    -1; when the function pointers cannot be loaded the run ends with the
    message, [glfwTerminate] is never called, and GLFW is still live when
    [main] returns -1.  Of the runs in which [main] returns, that is the
    only path that leaves GLFW live. *)
Theorem failure_paths_clean_up_differently (e : Env) :
  (window_opens e = false ->
   trace e = window_calls e ++
             [Call_cout "Failed to create GLFW window"; Call_glfwTerminate] /\
   count_calls is_glfwTerminate (trace e) = 1%nat /\
   outcome e = Exited (-1) /\
   glfw_live (snd (run e)) = false) /\
  (window_opens e = true -> loader_succeeds e = false ->
   trace e = window_calls e ++ loader_calls ++
             [Call_cout "Failed to initialize GLAD"] /\
   count_calls is_glfwTerminate (trace e) = 0%nat /\
   outcome e = Exited (-1) /\
   glfw_live (snd (run e)) = true) /\
  (forall status, outcome e = Exited status ->
   (glfw_live (snd (run e)) = true <->
    window_opens e = true /\ loader_succeeds e = false)).
Proof.
  destruct (run_spec e) as (Ht & Ho & Hlive & _).
  rewrite Ht, Ho, Hlive.
  unfold run_calls, run_outcome, window_calls, hint_calls, loader_calls.
  destruct (window_opens e), (loader_succeeds e), (closes (ticks e)),
    (apple e); cbn [negb andb orb];
    repeat split; intros; try discriminate; try reflexivity; auto;
    try match goal with H : _ /\ _ |- _ => destruct H; discriminate end.
Qed.

(** The theorem at [no_loader_host]: no [glfwTerminate], GLFW still live. *)
Lemma failure_paths_clean_up_differently_witness :
  (window_opens no_loader_host = true /\ loader_succeeds no_loader_host = false) /\
  count_calls is_glfwTerminate (trace no_loader_host) = 0%nat /\
  glfw_live (snd (run no_loader_host)) = true.
Proof.
  split; [repeat split|].
  pose proof (proj1 (proj2 (failure_paths_clean_up_differently no_loader_host))
                eq_refl eq_refl) as (_ & Hcount & _ & Hlive).
  split; [exact Hcount | exact Hlive].
Defined.

End Claims.

(** ** More facts about a run *)

Module Extra.

Import Ieee Glm Host Program Observe Survey GlmFacts SpinFacts RunFacts Collect.
Local Open Scope string_scope.
Local Open Scope list_scope.
Local Open Scope Z_scope.

(** *** Lists *)

Lemma count_calls_app q l1 l2 :
  count_calls q (l1 ++ l2) = (count_calls q l1 + count_calls q l2)%nat.
Proof. unfold count_calls. rewrite filter_app, length_app. reflexivity. Qed.

(** A call that occurs once, at the end, has nothing after it. *)
Lemma nothing_after_last (q : Call -> bool) c body pre post :
  q c = true -> count_calls q body = 0%nat ->
  body ++ [c] = pre ++ c :: post -> post = [].
Proof.
  intros Hq Hbody Heq.
  destruct post as [|p post]; [reflexivity|]. exfalso.
  destruct (@exists_last _ (p :: post)) as (post' & x & Hpost);
    [discriminate|].
  rewrite Hpost in Heq.
  change (pre ++ c :: post' ++ [x]) with (pre ++ (c :: post') ++ [x]) in Heq.
  rewrite app_assoc in Heq. apply app_inj_tail in Heq. destruct Heq as [Hb _].
  rewrite Hb, count_calls_app in Hbody. unfold count_calls in Hbody.
  cbn [filter] in Hbody. rewrite Hq in Hbody. cbn in Hbody. lia.
Qed.

(** *** State along the loop *)

Lemma deliver_state evs : forall w,
  gl (snd (deliver framebuffer_size_callback evs w)) = gl w.
Proof.
  induction evs as [|ev evs IH]; intros w; [reflexivity|].
  destruct ev as [width height|]; cbn [deliver]; rewrite !bind_run;
    cbn [modify fst snd gets].
  - destruct (resize_callback (with_framebuffer (width, height) w));
      cbn [when]; rewrite ?bind_run; rewrite IH; reflexivity.
  - rewrite IH. reflexivity.
Qed.

Lemma frame_state ID VAO tex w tk :
  gl (snd (frame ID VAO tex (with_now tk w))) = bound_for_draw ID VAO tex (gl w).
Proof.
  destruct w as [h n cs live cb sc fb g]. destruct tk as [key clk evs].
  destruct g as [vab abb eb bufs tb texs prog objs].
  set (r := frame ID VAO tex _).
  assert (Hr : exists W0,
     r = deliver framebuffer_size_callback evs W0 /\
     gl W0 = {| vertex_array_binding := VAO; array_buffer_binding := abb;
                element_bindings := eb; buffers := bufs; texture_binding := tex;
                textures := texs; program := Some ID; objects := objs |}).
  { subst r. destruct key; run_ops; eexists; split; reflexivity. }
  destruct Hr as (W0 & -> & Hgl).
  rewrite deliver_state, Hgl. reflexivity.
Qed.

Lemma loop_state ID VAO tex script : forall w,
  Ready VAO w -> should_close w = false ->
  gl (snd (render_loop ID VAO tex script w)) =
  match script with
  | [] => gl w
  | _ :: _ => bound_for_draw ID VAO tex (gl w)
  end.
Proof.
  induction script as [|tk rest IH]; intros w Hready Hsc;
    rewrite render_loop_step; cbv zeta; rewrite Hsc; [reflexivity|].
  set (w1 := with_calls _ w).
  assert (Hready1 : Ready VAO w1) by exact Hready.
  pose proof (frame_state ID VAO tex w1 tk) as Hgl.
  destruct (frame_spec ID tex tk Hready1) as (_ & Hs & Hr & _).
  change (should_close w1) with (should_close w) in Hs.
  rewrite Hsc in Hs. cbn [orb] in Hs.
  destruct (tick_closes tk) eqn:Hc.
  - rewrite render_loop_step. cbv zeta. rewrite Hs.
    cbn [snd with_calls gl]. exact Hgl.
  - rewrite (IH _ Hr Hs), Hgl. destruct rest; reflexivity.
Qed.

Lemma after_loop_state left w :
  gl (snd (after_loop left w)) = if left then released (gl w) else gl w.
Proof. destruct left, w as [h n cs live cb sc fb g]; reflexivity. Qed.

(** The GL state [main] stops in, when the loop was reached. *)
Lemma run_state e :
  initialised e = true ->
  gl (snd (run e)) =
  if closes (ticks e) then released (gl_after_loop e) else gl_after_loop e.
Proof.
  intros Hinit. unfold initialised in Hinit.
  apply andb_true_iff in Hinit. destruct Hinit as [Hw Hl].
  unfold run, gl_after_loop. rewrite (main_reaches_loop e Hw Hl).
  pose proof (@loop_state (program_name e) 1 1 (ticks e) (world_at_loop e)
                (world_at_loop_ready e) eq_refl) as Hgl.
  pose proof (render_loop_spec (program_name e) 1 (ticks e)
                (world_at_loop_ready e)) as Hspec.
  cbv zeta in Hspec. destruct Hspec as (Hleft & _).
  destruct (render_loop _ _ _ _ _) as [left w'].
  cbn [fst snd] in Hgl, Hleft.
  rewrite after_loop_state, Hgl, Hleft. reflexivity.
Qed.

(** *** What a run contains *)

Lemma map_of_flat_map {A B C} (g : B -> C) (f : A -> list B) l :
  map g (flat_map f l) = flat_map (fun a => map g (f a)) l.
Proof.
  induction l as [|a l IH]; [reflexivity|].
  cbn [flat_map]. rewrite map_app, IH. reflexivity.
Qed.

Lemma viewports_poll evs :
  viewports (poll_calls evs) = map to_viewport (resizes evs).
Proof.
  induction evs as [|[w h|] evs IH]; [reflexivity| |exact IH].
  change (to_viewport (w, h) :: viewports (poll_calls evs) =
          to_viewport (w, h) :: map to_viewport (resizes evs)).
  f_equal. exact IH.
Qed.

Lemma viewports_run e :
  viewports (trace e) = map to_viewport (reported_sizes e).
Proof.
  unfold reported_sizes, sizes_of. rewrite map_of_flat_map.
  unfold viewports at 1.
  rewrite (collect_run _ (fun _ _ tk => map to_viewport (resizes (polled tk)))).
  - rewrite per_frame_flat_map. by_path e.
  - intros. unfold frame_calls. rewrite !flat_map_app.
    fold (viewports (poll_calls (polled tk))). rewrite viewports_poll.
    destruct (key_escape tk); cbn; rewrite app_nil_r; reflexivity.
Qed.

Lemma close_requests_run e :
  close_requests (trace e) =
  flat_map (fun tk => if key_escape tk then [true] else []) (frames e).
Proof.
  unfold close_requests.
  rewrite (collect_run _
             (fun _ _ tk => if key_escape tk then [true] else []));
    [|frame_part].
  rewrite per_frame_flat_map. by_path e.
Qed.

Lemma phase_log_run e :
  phase_log (trace e) =
  (if initialised e then [AtBindTexture; AtTest] else []) ++
  flat_map (fun _ => iteration_phases) (frames e).
Proof.
  unfold phase_log.
  rewrite (collect_run _ (fun _ _ _ => iteration_phases)); [|frame_part].
  rewrite per_frame_flat_map. by_path e.
Qed.

Lemma lookups_run e :
  lookups (trace e) =
  flat_map (fun _ => frame_lookups (program_name e)) (frames e).
Proof.
  unfold lookups.
  rewrite (collect_run _ (fun ID _ _ => frame_lookups ID)); [|frame_part].
  rewrite (per_frame_flat_map (program_name e)
             (fun _ => frame_lookups (program_name e))).
  by_path e.
Qed.

Lemma time_uploads_run e :
  float_uploads "time" (trace e) =
  map (fun tk => to_float32 (second_time tk)) (frames e).
Proof.
  rewrite <- flat_map_singleton. unfold float_uploads.
  rewrite (collect_run _ (fun _ _ tk => [to_float32 (second_time tk)]));
    [|frame_part].
  rewrite per_frame_flat_map. by_path e.
Qed.

Lemma attributes_run e :
  attributes (trace e) =
  if initialised e
  then [ {| at_index := 0; at_size := 3; at_stride := 32; at_offset := 0 |};
         {| at_index := 1; at_size := 3; at_stride := 32; at_offset := 12 |};
         {| at_index := 2; at_size := 2; at_stride := 32; at_offset := 24 |} ]
  else [].
Proof.
  unfold attributes.
  rewrite (collect_run _ (fun _ _ _ => [])); [|frame_part].
  rewrite per_frame_flat_map, flat_map_nil. by_path e.
Qed.

Lemma array_buffer_sizes_run e :
  array_buffer_sizes (trace e) = if initialised e then [128] else [].
Proof.
  unfold array_buffer_sizes.
  rewrite (collect_run _ (fun _ _ _ => [])); [|frame_part].
  rewrite per_frame_flat_map, flat_map_nil. by_path e.
Qed.

Lemma texture_images_run e :
  texture_images (trace e) =
  if initialised e then
    match image_file e with
    | Some image =>
        [(GL_RGB, img_width image, img_height image, GL_RGB, GL_UNSIGNED_BYTE,
          img_pixels image)]
    | None => []
    end
  else [].
Proof.
  unfold texture_images.
  rewrite (collect_run _ (fun _ _ _ => [])); [|frame_part].
  rewrite per_frame_flat_map, flat_map_nil. by_path e.
Qed.

Lemma gettime_count_run e :
  count_calls is_glfwGetTime (trace e) = (2 * List.length (frames e))%nat.
Proof.
  rewrite (@count_run _ 2%nat e eq_refl) by frame_count.
  by_path e; lia.
Qed.

Lemma key_queries_run e :
  key_queries (trace e) = map (fun _ => GLFW_KEY_ESCAPE) (frames e).
Proof.
  rewrite <- flat_map_singleton. unfold key_queries.
  rewrite (collect_run _ (fun _ _ _ => [GLFW_KEY_ESCAPE])); [|frame_part].
  rewrite per_frame_flat_map. by_path e.
Qed.

Lemma image_free_count_run e :
  count_calls is_stbi_image_free (trace e) =
  if initialised e then 1%nat else 0%nat.
Proof.
  rewrite (@count_run _ 0%nat e eq_refl) by frame_count.
  by_path e.
Qed.

Lemma terminate_count_run e :
  count_calls is_glfwTerminate (trace e) =
  if negb (window_opens e) then 1%nat
  else if negb (loader_succeeds e) then 0%nat
  else if closes (ticks e) then 1%nat else 0%nat.
Proof.
  rewrite (@count_run _ 0%nat e eq_refl) by frame_count.
  by_path e.
Qed.

Lemma releases_count_run e r :
  count_calls (releases r) (trace e) =
  if initialised e && closes (ticks e)
  then count_calls (releases r) shutdown_calls
  else 0%nat.
Proof.
  rewrite (@count_run _ 0%nat e eq_refl) by frame_count.
  unfold initialised, window_calls, hint_calls, loader_calls, setup_calls.
  destruct (window_opens e), (loader_succeeds e), (apple e), (image_file e),
    (closes (ticks e)); cbn [negb andb]; reflexivity.
Qed.

(** *** Properties *)

Lemma escape_at_most_once script :
  (List.length
     (flat_map (fun tk => if key_escape tk then [true] else [])
               (executed script)) <= 1)%nat.
Proof.
  induction script as [|tk rest IH]; [cbn; lia|].
  cbn [executed flat_map]. unfold tick_closes.
  destruct (key_escape tk); cbn [orb app List.length flat_map].
  - lia.
  - destruct (existsb is_close (polled tk)); [cbn; lia | exact IH].
Qed.

(** X1: [processInput] asks [glfwGetKey] once in every iteration, for the
    Escape key and for no other.  It calls [glfwSetWindowShouldClose] only
    with [true], only in an iteration in which Escape is down, and at most
    once in a whole run, since the loop is left at the next test. *)
Theorem close_asked_at_most_once (e : Env) :
  key_queries (trace e) = map (fun _ => GLFW_KEY_ESCAPE) (frames e) /\
  close_requests (trace e) =
    flat_map (fun tk => if key_escape tk then [true] else []) (frames e) /\
  Forall (fun b => b = true) (close_requests (trace e)) /\
  (List.length (close_requests (trace e)) <= 1)%nat.
Proof.
  rewrite close_requests_run.
  split; [exact (key_queries_run e)|]. split; [reflexivity|]. split.
  - apply Forall_forall. intros b Hb. apply in_flat_map in Hb.
    destruct Hb as (tk & _ & Hb).
    destruct (key_escape tk); cbn in Hb; [destruct Hb as [Hb|[]]; auto | contradiction].
  - unfold frames. destruct (initialised e); [apply escape_at_most_once|cbn; lia].
Qed.

(** X2: every resize the host reports during an iteration makes
    [framebuffer_size_callback] issue exactly one [glViewport(0, 0, width,
    height)], in the order reported; a run has no other [glViewport] call,
    in particular none at startup. *)
Theorem viewport_follows_resizes (e : Env) :
  viewports (trace e) = map to_viewport (reported_sizes e).
Proof. exact (viewports_run e). Qed.

(** X4: the render loop changes nothing of what setup put into the GL state.
    However many iterations have run, as long as the loop has not been
    left the array buffer holds the 32 floats of [vertices], the element
    buffer of the vertex array holds [indices] (so a draw of 6 indices
    reads them), the texture object holds the image if there was one, and
    the same vertex array and texture are bound.  Only the program in use
    moves, to the shader's program, from the first iteration on. *)
Theorem setup_survives_the_loop (e : Env) :
  initialised e = true -> closes (ticks e) = false ->
  let g := gl (snd (run e)) in
  lookup (array_buffer_binding g) (buffers g) = Some (Floats vertices) /\
  bound_buffer GL_ELEMENT_ARRAY_BUFFER g = Some 2 /\
  lookup 2 (buffers g) = Some (UInts indices) /\
  fetch_indices g 6 0 = indices /\
  vertex_array_binding g = 1 /\
  texture_binding g = 1 /\
  lookup 1 (textures g) = image_file e /\
  program g = match frames e with
              | [] => active_after_compile e
              | _ :: _ => Some (program_name e)
              end.
Proof.
  intros Hinit Hopen g. subst g. rewrite (run_state e Hinit), Hopen.
  unfold frames, gl_after_loop, world_at_loop. rewrite Hinit. cbn [gl].
  destruct (ticks e) as [|tk rest], (image_file e); repeat split; reflexivity.
Qed.

(** The theorem at [open_host]: two iterations have run and the window is
    still open. *)
Lemma setup_survives_the_loop_witness :
  (initialised open_host = true /\ closes (ticks open_host) = false) /\
  fetch_indices (gl (snd (run open_host))) 6 0 = [0; 1; 3; 1; 2; 3] /\
  lookup 1 (textures (gl (snd (run open_host)))) = Some small_image /\
  program (gl (snd (run open_host))) = Some 3.
Proof.
  split; [split; reflexivity|].
  destruct (setup_survives_the_loop open_host eq_refl eq_refl)
    as (_ & _ & _ & Hf & _ & _ & Hx & Hp).
  split; [exact Hf|]. split; [exact Hx | exact Hp].
Defined.

(** X5: the stages of a run come in one order: the texture is bound at setup,
    the loop condition is tested, and then every iteration asks for the
    key, clears, binds the texture, draws, presents, polls the events and
    tests the loop condition again, each exactly once. *)
Theorem iterations_have_one_shape (e : Env) :
  phase_log (trace e) =
  (if initialised e then [AtBindTexture; AtTest] else []) ++
  flat_map (fun _ => [AtInput; AtClear; AtBindTexture; AtDraw; AtPresent;
                      AtPoll; AtTest]) (frames e).
Proof. exact (phase_log_run e). Qed.

Lemma until_loader_run e :
  until_loader (trace e) =
  window_calls e ++
  (if window_opens e then loader_calls
   else [Call_cout "Failed to create GLFW window"; Call_glfwTerminate]).
Proof.
  rewrite trace_is_run_calls.
  unfold run_calls, window_calls, hint_calls, loader_calls.
  destruct (window_opens e), (apple e), (loader_succeeds e); reflexivity.
Qed.

(** X6: no OpenGL function is called before [gladLoadGLLoader] has returned, and
    none at all in a run in which the window cannot be created or the
    loader fails. *)
Theorem no_gl_call_without_loader (e : Env) :
  count_calls is_gl_call (until_loader (trace e)) = 0%nat /\
  (initialised e = false -> count_calls is_gl_call (trace e) = 0%nat).
Proof.
  split.
  - rewrite until_loader_run. unfold window_calls, hint_calls, loader_calls.
    destruct (window_opens e), (apple e); reflexivity.
  - unfold initialised. intros Hinit. rewrite trace_is_run_calls.
    unfold run_calls, window_calls, hint_calls, loader_calls.
    destruct (window_opens e), (loader_succeeds e); try discriminate Hinit;
      destruct (apple e); reflexivity.
Qed.

(** The theorem at [no_loader_host]. *)
Lemma no_gl_call_without_loader_witness :
  initialised no_loader_host = false /\
  count_calls is_gl_call (trace no_loader_host) = 0%nat.
Proof.
  split; [reflexivity|].
  exact (proj2 (no_gl_call_without_loader no_loader_host) eq_refl).
Defined.

Lemma trace_with_image e i :
  trace (with_image e i) = run_calls (with_image e i).
Proof. apply trace_is_run_calls. Qed.

(** X7: when [stbi_load] returns an image, [glTexImage2D] is called once, with
    the width, height and pixels of that image and with [GL_RGB] as both
    internal format and format, whatever channel count the decoder
    reported: two images that differ only in their channel count give the
    same run.  [stbi_image_free] is called once in every run that gets that
    far, image or not. *)
Theorem texture_upload_ignores_channels (e : Env) :
  texture_images (trace e) =
    (if initialised e then
       match image_file e with
       | Some image =>
           [(GL_RGB, img_width image, img_height image, GL_RGB,
             GL_UNSIGNED_BYTE, img_pixels image)]
       | None => []
       end
     else []) /\
  (forall image n,
     trace (with_image e (Some (with_channels image n))) =
     trace (with_image e (Some image))) /\
  count_calls is_stbi_image_free (trace e) =
    (if initialised e then 1%nat else 0%nat).
Proof.
  split; [exact (texture_images_run e)|].
  split; [|exact (image_free_count_run e)].
  intros image n. rewrite !trace_with_image. reflexivity.
Qed.


Lemma trace_ends_with_terminate e :
  count_calls is_glfwTerminate (trace e) = 1%nat ->
  exists body,
    trace e = body ++ [Call_glfwTerminate] /\
    count_calls is_glfwTerminate body = 0%nat.
Proof.
  intros Hone.
  assert (Hshape : exists body, trace e = body ++ [Call_glfwTerminate]).
  { rewrite terminate_count_run in Hone. rewrite trace_is_run_calls.
    unfold run_calls, shutdown_calls.
    destruct (window_opens e), (loader_succeeds e), (closes (ticks e));
      cbn [negb] in *; try discriminate Hone.
    - eexists.
      change [Call_glDeleteVertexArrays 1; Call_glDeleteBuffers 1;
              Call_glDeleteBuffers 2; Call_glfwTerminate]
        with ([Call_glDeleteVertexArrays 1; Call_glDeleteBuffers 1;
               Call_glDeleteBuffers 2] ++ [Call_glfwTerminate]).
      rewrite !app_assoc. reflexivity.
    - exists (window_calls e ++ [Call_cout "Failed to create GLFW window"]).
      rewrite <- app_assoc. reflexivity.
    - exists (window_calls e ++ [Call_cout "Failed to create GLFW window"]).
      rewrite <- app_assoc. reflexivity.
    - exists (window_calls e ++ [Call_cout "Failed to create GLFW window"]).
      rewrite <- app_assoc. reflexivity.
    - exists (window_calls e ++ [Call_cout "Failed to create GLFW window"]).
      rewrite <- app_assoc. reflexivity. }
  destruct Hshape as (body & Hbody). exists body. split; [exact Hbody|].
  rewrite Hbody, count_calls_app in Hone. cbn in Hone. lia.
Qed.

(** X8: [glfwTerminate] is called at most once in a run, and when it is called
    it is the last call: no GLFW or OpenGL function is used after the
    library has been shut down, and the three release calls come before
    it. *)
Theorem nothing_after_terminate (e : Env) (pre post : list Call) :
  trace e = pre ++ Call_glfwTerminate :: post ->
  post = [] /\ count_calls is_glfwTerminate (trace e) = 1%nat.
Proof.
  intros Heq.
  assert (Hcount : count_calls is_glfwTerminate (trace e) = 1%nat).
  { pose proof (terminate_count_run e) as Hc.
    assert (Hge : (1 <= count_calls is_glfwTerminate (trace e))%nat).
    { rewrite Heq, count_calls_app. unfold count_calls at 2.
      cbn [filter is_glfwTerminate List.length]. lia. }
    rewrite Hc in *.
    destruct (negb (window_opens e)), (negb (loader_succeeds e)),
      (closes (ticks e)); lia. }
  split; [|exact Hcount].
  destruct (trace_ends_with_terminate e Hcount) as (body & Hbody & Hzero).
  rewrite Hbody in Heq.
  exact (@nothing_after_last is_glfwTerminate Call_glfwTerminate body pre post
           eq_refl Hzero Heq).
Qed.

(** The theorem at [escape_host], whose run ends with the three releases
    and [glfwTerminate]. *)
Lemma nothing_after_terminate_witness :
  exists pre,
    trace escape_host = pre ++ Call_glfwTerminate :: [] /\
    count_calls is_glfwTerminate (trace escape_host) = 1%nat.
Proof.
  exists (removelast (trace escape_host)).
  assert (Heq : trace escape_host =
                removelast (trace escape_host) ++ Call_glfwTerminate :: []).
  { rewrite trace_is_run_calls. reflexivity. }
  split; [exact Heq|].
  exact (proj2 (nothing_after_terminate escape_host _ _ Heq)).
Defined.

Lemma shutdown_releases_at_most_once r :
  (count_calls (releases r) shutdown_calls <= 1)%nat /\
  (count_calls (releases r) shutdown_calls = 1%nat ->
   In r [VertexArray 1; Buffer 1; Buffer 2]).
Proof.
  unfold count_calls, shutdown_calls.
  destruct r as [n|n|n|n]; cbn [filter releases same_resource];
    try (split; [cbn; lia | cbn; discriminate]).
  - destruct (Z.eqb_spec n 1) as [->|Hn]; cbn; split; auto; lia.
  - destruct (Z.eqb_spec n 1) as [H1|H1]; destruct (Z.eqb_spec n 2) as [H2|H2];
      cbn; split; try lia; try discriminate; subst; auto.
Qed.

(** X9: no GL object is ever released twice.  Release calls are issued only in
    a run that returns 0, only for the vertex array and the two buffers,
    and only after the last draw: such a run is some calls that release
    nothing and contain every draw, followed by the three releases and
    [glfwTerminate]. *)
Theorem releases_are_single_and_late (e : Env) :
  (forall r, (count_calls (releases r) (trace e) <= 1)%nat) /\
  (forall r, count_calls (releases r) (trace e) = 1%nat ->
             outcome e = Exited 0 /\ In r [VertexArray 1; Buffer 1; Buffer 2]) /\
  (outcome e = Exited 0 ->
   exists body,
     trace e = body ++ shutdown_calls /\
     draws body = draws (trace e) /\
     forall r, count_calls (releases r) body = 0%nat).
Proof.
  split; [|split].
  - intros r. rewrite releases_count_run.
    destruct (initialised e && closes (ticks e));
      [apply shutdown_releases_at_most_once | lia].
  - intros r. rewrite releases_count_run, outcome_is_run_outcome.
    unfold run_outcome, initialised.
    destruct (window_opens e), (loader_succeeds e), (closes (ticks e));
      cbn [negb andb]; try discriminate.
    intros H. split; [reflexivity|].
    apply shutdown_releases_at_most_once. exact H.
  - rewrite outcome_is_run_outcome. unfold run_outcome. intros Hout.
    assert (Hinit : initialised e && closes (ticks e) = true).
    { unfold initialised.
      destruct (window_opens e), (loader_succeeds e), (closes (ticks e));
        cbn [negb andb] in *; try discriminate Hout; reflexivity. }
    assert (Hshape : exists body, trace e = body ++ shutdown_calls).
    { rewrite trace_is_run_calls. unfold run_calls, initialised in *.
      destruct (window_opens e), (loader_succeeds e), (closes (ticks e));
        cbn [negb andb] in *; try discriminate Hinit.
      eexists. rewrite !app_assoc. reflexivity. }
    destruct Hshape as (body & Hbody). exists body.
    split; [exact Hbody|]. split.
    + rewrite Hbody. unfold draws. rewrite flat_map_app. cbn.
      rewrite app_nil_r. reflexivity.
    + intros r. pose proof (releases_count_run e r) as Hc.
      rewrite Hinit, Hbody, count_calls_app in Hc. lia.
Qed.

(** The theorem at [escape_host]: the vertex array is released once, in a
    run that returns 0. *)
Lemma releases_are_single_and_late_witness :
  count_calls (releases (VertexArray 1)) (trace escape_host) = 1%nat /\
  outcome escape_host = Exited 0.
Proof.
  assert (H : count_calls (releases (VertexArray 1)) (trace escape_host) = 1%nat).
  { rewrite trace_is_run_calls. reflexivity. }
  split; [exact H|].
  exact (proj1 (proj1 (proj2 (releases_are_single_and_late escape_host)) _ H)).
Defined.

(** X10: every vertex attribute a draw fetches lies inside the array buffer: for
    each index a draw reads and each of the three attributes declared with
    [glVertexAttribPointer] (3, 3 and 2 floats at byte offsets 0, 12 and 24
    of a 32-byte stride), the bytes read are within the 128 bytes given to
    [glBufferData]. *)
Theorem vertex_fetches_stay_in_bounds (e : Env) :
  attributes (trace e) =
    (if initialised e
     then [ {| at_index := 0; at_size := 3; at_stride := 32; at_offset := 0 |};
            {| at_index := 1; at_size := 3; at_stride := 32; at_offset := 12 |};
            {| at_index := 2; at_size := 2; at_stride := 32; at_offset := 24 |} ]
     else []) /\
  array_buffer_sizes (trace e) = (if initialised e then [128] else []) /\
  Forall (fun d : Sym * Z * list Z =>
     Forall (fun i =>
       Forall (fun a =>
         Forall (fun size => fetch_in_bounds size a i)
                (array_buffer_sizes (trace e)))
         (attributes (trace e)))
       (snd d))
    (draws (trace e)).
Proof.
  rewrite attributes_run, array_buffer_sizes_run, draws_run.
  split; [reflexivity|]. split; [reflexivity|].
  apply Forall_forall. intros d Hd. apply in_map_iff in Hd.
  destruct Hd as (tk & <- & _). cbn [snd].
  destruct (initialised e).
  - unfold indices.
    repeat first [apply Forall_nil | apply Forall_cons];
      unfold fetch_in_bounds, sizeof_float; cbn; lia.
  - apply Forall_forall. intros i _. constructor.
Qed.

(** X14: the clock is read twice in every iteration.  The first reading makes
    the spin matrix.  The float uploaded as "time" is the second reading,
    taken after [use()], narrowed from [double] to [float] where it is
    passed to [glUniform1f]: a reading of 16777217 seconds is uploaded as
    16777216. *)
Theorem time_uniform_is_second_reading (e : Env) :
  count_calls is_glfwGetTime (trace e) = (2 * List.length (frames e))%nat /\
  float_uploads "time" (trace e) =
    map (fun tk => to_float32 (second_time tk)) (frames e) /\
  to_float32 seconds_16777217 = float32_of_Z 16777216 /\
  (forallb spin_defined (frames e) = true ->
   uploads_to "transform" (trace e) =
     map (fun tk => frame_trans (first_time tk)) (frames e)).
Proof.
  split; [exact (gettime_count_run e)|].
  split; [exact (time_uploads_run e)|].
  split; [exact to_float32_16777217|].
  intros _. exact (transform_uploads e).
Qed.

(** The theorem at [escape_host]: four readings, two uploads of each. *)
Lemma time_uniform_is_second_reading_witness :
  forallb spin_defined (frames escape_host) = true /\
  uploads_to "transform" (trace escape_host) =
    [frame_trans (double_of_Z 0); frame_trans (double_of_Z 1)] /\
  float_uploads "time" (trace escape_host) =
    [float32_of_Z 0; float32_of_Z 1].
Proof.
  split; [reflexivity|].
  destruct (time_uniform_is_second_reading escape_host) as (_ & Ht & _ & Hs).
  split; [exact (Hs eq_refl)|].
  rewrite Ht. reflexivity.
Defined.

(** X16: the five uniform locations are asked for again in every iteration, from
    the shader's program and in the same order; none is kept from one
    iteration to the next. *)
Theorem locations_looked_up_every_iteration (e : Env) :
  lookups (trace e) =
  flat_map (fun _ => [ (program_name e, "model"); (program_name e, "view");
                       (program_name e, "projection"); (program_name e, "time");
                       (program_name e, "transform") ])
           (frames e).
Proof. exact (lookups_run e). Qed.

Lemma loop_calls_closing ID VAO tex p script :
  loop_calls ID VAO tex true p script = [Call_glfwWindowShouldClose].
Proof. destruct script; reflexivity. Qed.

Lemma loop_calls_executed ID VAO tex script : forall p,
  loop_calls ID VAO tex false p (executed script) =
  loop_calls ID VAO tex false p script.
Proof.
  induction script as [|tk rest IH]; intros p; [reflexivity|].
  cbn [executed loop_calls]. f_equal. f_equal.
  destruct (tick_closes tk).
  - rewrite !loop_calls_closing. reflexivity.
  - apply IH.
Qed.

Lemma closes_executed script : closes (executed script) = closes script.
Proof.
  unfold closes. induction script as [|tk rest IH]; [reflexivity|].
  cbn [executed existsb]. destruct (tick_closes tk); [reflexivity | exact IH].
Qed.

Lemma executed_up_to_close pre tk post :
  closes pre = false -> tick_closes tk = true ->
  executed (pre ++ tk :: post) = pre ++ [tk].
Proof.
  unfold closes. induction pre as [|a pre IH]; intros Hpre Htk.
  - cbn [app executed]. rewrite Htk. reflexivity.
  - cbn [existsb] in Hpre. apply orb_false_iff in Hpre. destruct Hpre as [Ha Hpre].
    cbn [app executed]. rewrite Ha, (IH Hpre Htk). reflexivity.
Qed.

Lemma run_on_executed e :
  trace (with_ticks e (executed (ticks e))) = trace e /\
  outcome (with_ticks e (executed (ticks e))) = outcome e.
Proof.
  rewrite !trace_is_run_calls, !outcome_is_run_outcome.
  unfold run_calls, run_outcome. cbn [with_ticks window_opens loader_succeeds
    ticks program_name active_after_compile].
  rewrite loop_calls_executed, closes_executed.
  split; reflexivity.
Qed.

(** X15: what the host holds ready after the tick that closes the window is never
    looked at: if no tick of [pre] closes and [tk] does, the run against
    [pre ++ tk :: post] is call for call the run against [pre ++ [tk]], it
    renders the closing tick too and stops there. *)
Theorem ticks_after_close_are_ignored (e : Env) (pre post : list Tick) (tk : Tick) :
  closes pre = false -> tick_closes tk = true ->
  trace (with_ticks e (pre ++ tk :: post)) = trace (with_ticks e (pre ++ [tk])) /\
  outcome (with_ticks e (pre ++ tk :: post)) =
    outcome (with_ticks e (pre ++ [tk])) /\
  count_calls is_glfwSwapBuffers (trace (with_ticks e (pre ++ tk :: post))) =
    (if initialised e then S (List.length pre) else 0%nat).
Proof.
  intros Hpre Htk.
  pose proof (executed_up_to_close pre tk post Hpre Htk) as Hlong.
  pose proof (executed_up_to_close pre tk [] Hpre Htk) as Hshort.
  destruct (run_on_executed (with_ticks e (pre ++ tk :: post))) as (Ht1 & Ho1).
  destruct (run_on_executed (with_ticks e (pre ++ [tk]))) as (Ht2 & Ho2).
  cbn [with_ticks ticks] in Ht1, Ho1, Ht2, Ho2.
  rewrite Hlong in Ht1, Ho1. rewrite Hshort in Ht2, Ho2.
  split; [|split].
  - rewrite <- Ht1, <- Ht2. reflexivity.
  - rewrite <- Ho1, <- Ho2. reflexivity.
  - rewrite swaps_run. unfold frames, initialised.
    cbn [with_ticks ticks window_opens loader_succeeds].
    destruct (window_opens e && loader_succeeds e); [|reflexivity].
    rewrite Hlong, length_app. cbn [List.length]. lia.
Qed.

(** The theorem at [escape_host] with a further tick behind the closing
    one. *)
Lemma ticks_after_close_are_ignored_witness :
  (closes [quiet_tick] = false /\
   tick_closes {| key_escape := true; clock := []; polled := [] |} = true) /\
  count_calls is_glfwSwapBuffers
    (trace (with_ticks escape_host
       ([quiet_tick] ++
        {| key_escape := true; clock := []; polled := [] |} :: [quiet_tick]))) =
  2%nat.
Proof.
  split; [split; reflexivity|].
  exact (proj2 (proj2 (ticks_after_close_are_ignored escape_host [quiet_tick]
                         [quiet_tick]
                         {| key_escape := true; clock := []; polled := [] |}
                         eq_refl eq_refl))).
Defined.


(** *** The matrices *)

Lemma frame_model_is_rotation_x : frame_model = rotation_x (radians (-55)).
Proof.
  unfold frame_model. change (mat4_diag 1) with identity. apply rotate_identity_x.
Qed.

Lemma frame_view_is_translation :
  frame_view = Mat4 (Vec4 1 0 0 0) (Vec4 0 1 0 0) (Vec4 0 0 1 0) (Vec4 0 0 (-3) 1).
Proof.
  unfold frame_view. change (mat4_diag 1) with identity. apply translate_identity.
Qed.

Lemma tan_half_fov_bound : (1 / 5 <= tan (radians 45 / 2))%R.
Proof.
  replace (radians 45 / 2)%R with (PI / 8)%R by (unfold radians; lra).
  pose proof PI_RGT_0 as Hpi. pose proof PI_4 as Hpi4.
  assert (Hs0 : (0 <= sin (PI / 8))%R) by (apply sin_ge_0; lra).
  assert (Hc0 : (0 < cos (PI / 8))%R) by (apply cos_gt_0; lra).
  pose proof (COS_bound (PI / 8)) as Hc1.
  assert (Hdouble : (cos (PI / 4) = 1 - 2 * sin (PI / 8) * sin (PI / 8))%R).
  { replace (PI / 4)%R with (2 * (PI / 8))%R by lra. apply cos_2a_sin. }
  rewrite cos_PI4 in Hdouble.
  pose proof Rlt_sqrt2_0 as Hr0.
  assert (Hr2 : (sqrt 2 * sqrt 2 = 2)%R) by (apply sqrt_sqrt; lra).
  assert (Hu : ((1 / sqrt 2) * sqrt 2 = 1)%R) by (field; lra).
  set (u := (1 / sqrt 2)%R) in *. set (r := sqrt 2) in *.
  set (s := sin (PI / 8)) in *. set (c := cos (PI / 8)) in *.
  assert (Hr : (7 / 5 <= r)%R) by nra.
  assert (Hub : (u <= 3 / 4 + 1 / 100)%R) by nra.
  assert (Hs : (1 / 5 <= s)%R) by nra.
  unfold tan. fold s c.
  apply Rle_trans with s; [exact Hs|].
  unfold Rdiv. rewrite <- (Rmult_1_r s) at 1.
  apply Rmult_le_compat_l; [exact Hs0|].
  rewrite <- Rinv_1. apply Rinv_le_contravar; lra.
Qed.

Lemma quad_positions :
  positions vertices =
  [ Vec4 0.5 0.5 0 1; Vec4 0.5 (-0.5) 0 1; Vec4 (-0.5) (-0.5) 0 1;
    Vec4 (-0.5) 0.5 0 1 ]%R.
Proof. reflexivity. Qed.

(** Where the three matrices take the point (x, y, 0, 1). *)
Lemma clip_position_of_flat_point x y :
  clip_position (Vec4 x y 0 1) =
  (let k := 1 / tan (radians 45 / 2) in
   let c := cos (radians (-55)) in
   let s := sin (radians (-55)) in
   Vec4 (x * (1 / (800 / 600 * tan (radians 45 / 2))))
        (y * c * k)
        ((y * s - 3) * (- (100 + 0.1) / (100 - 0.1)) +
         (- (2 * 100 * 0.1) / (100 - 0.1)))
        (3 - y * s))%R.
Proof.
  unfold clip_position. rewrite frame_model_is_rotation_x, frame_view_is_translation.
  cbv beta iota zeta delta
    [frame_projection perspective rotation_x mul_mat_vec vadd vscale
     x4 y4 z4 w4 col0 col1 col2 col3].
  apply vec4_eq; ring.
Qed.

Lemma product_bound a b A B :
  (- A <= a <= A -> - B <= b <= B -> - (A * B) <= a * b <= A * B)%R.
Proof. intros Ha Hb. nra. Qed.

Lemma flat_point_in_clip x y :
  (- 0.5 <= x <= 0.5 -> - 0.5 <= y <= 0.5 ->
   in_clip_volume (clip_position (Vec4 x y 0 1)))%R.
Proof.
  intros Hx Hy.
  pose proof tan_half_fov_bound as HT.
  pose proof (SIN_bound (radians (-55))) as Hs.
  pose proof (COS_bound (radians (-55))) as Hc.
  set (T := tan (radians 45 / 2)) in *.
  assert (Hk : (0 < 1 / T <= 5)%R).
  { split.
    - apply Rdiv_lt_0_compat; lra.
    - apply Rmult_le_reg_r with T; [lra|]. field_simplify; lra. }
  assert (Hka : (1 / (800 / 600 * T) = 3 / 4 * (1 / T))%R) by (field; lra).
  rewrite clip_position_of_flat_point. cbv zeta. fold T. rewrite Hka.
  unfold in_clip_volume. cbn [x4 y4 z4 w4].
  set (k := (1 / T)%R) in *.
  set (c := cos (radians (-55))) in *. set (s := sin (radians (-55))) in *.
  assert (Hk' : (- 5 <= k <= 5)%R) by lra.
  assert (Hys : (- (0.5 * 1) <= y * s <= 0.5 * 1)%R)
    by (apply product_bound; lra).
  assert (Hyc : (- (0.5 * 1) <= y * c <= 0.5 * 1)%R)
    by (apply product_bound; lra).
  assert (Hxk : (- (0.5 * 5) <= x * k <= 0.5 * 5)%R)
    by (apply product_bound; lra).
  assert (Hyck : (- (0.5 * 1 * 5) <= y * c * k <= 0.5 * 1 * 5)%R)
    by (apply product_bound; lra).
  repeat split; lra.
Qed.

Lemma flat_point_in_spin angle x y :
  (- 0.5 <= x <= 0.5 -> - 0.5 <= y <= 0.5 ->
   in_clip_volume
     (mul_mat_vec (rotate (mat4_diag 1) angle (Vec3 0 0 1)) (Vec4 x y 0 1)))%R.
Proof.
  intros Hx Hy. change (mat4_diag 1) with identity. rewrite rotate_identity_z.
  pose proof (SIN_bound angle) as Hs.
  pose proof (COS_bound angle) as Hc.
  unfold in_clip_volume, mul_mat_vec, rotation_z, vadd, vscale.
  cbn [x4 y4 z4 w4 col0 col1 col2 col3].
  set (c := cos angle) in *.
  set (s := sin angle) in *.
  assert (Hcx : (- (1 * 0.5) <= c * x <= 1 * 0.5)%R)
    by (apply product_bound; lra).
  assert (Hsx : (- (1 * 0.5) <= s * x <= 1 * 0.5)%R)
    by (apply product_bound; lra).
  assert (Hcy : (- (1 * 0.5) <= c * y <= 1 * 0.5)%R)
    by (apply product_bound; lra).
  assert (Hsy : (- (1 * 0.5) <= s * y <= 1 * 0.5)%R)
    by (apply product_bound; lra).
  repeat split; lra.
Qed.

(** X13: under [projection * view * model], the composition the file describes
    for clip coordinates, every point of the quad (x and y between -0.5 and
    0.5, z = 0) lands inside the clip volume, in front of the eye: the
    whole quad is visible.  The same holds under the rotation about
    (0,0,1) by any angle, hence under the spin matrix at every time at
    which its angle is a finite number.  In particular it holds for the
    four positions in [vertices]. *)
Theorem quad_is_inside_the_clip_volume :
  (forall x y : float,
     - 0.5 <= x <= 0.5 -> - 0.5 <= y <= 0.5 ->
     in_clip_volume (clip_position (Vec4 x y 0 1)) /\
     forall angle : float,
       in_clip_volume
         (mul_mat_vec (rotate (mat4_diag 1) angle (Vec3 0 0 1))
                      (Vec4 x y 0 1)))%R /\
  List.length (positions vertices) = 4%nat /\
  Forall (fun v => in_clip_volume (clip_position v)) (positions vertices) /\
  (forall angle : float,
     Forall (fun v => in_clip_volume
                        (mul_mat_vec (rotate (mat4_diag 1) angle (Vec3 0 0 1)) v))
            (positions vertices)) /\
  (forall t : double,
     is_finite (spin_angle t) = true ->
     Forall (fun v => in_clip_volume (mul_mat_vec (frame_trans t) v))
            (positions vertices)).
Proof.
  split.
  { intros x y Hx Hy. split; [apply flat_point_in_clip; assumption|].
    intros angle. apply flat_point_in_spin; assumption. }
  split; [reflexivity|]. rewrite quad_positions. split; [|split].
  - repeat first [apply Forall_nil | apply Forall_cons];
      apply flat_point_in_clip; lra.
  - intros angle. repeat first [apply Forall_nil | apply Forall_cons];
      apply flat_point_in_spin; lra.
  - intros t _. unfold frame_trans.
    repeat first [apply Forall_nil | apply Forall_cons];
      apply flat_point_in_spin; lra.
Qed.

(** The theorem at the top right corner, (0.5, 0.5, 0), and at 3.6
    seconds. *)
Lemma quad_is_inside_the_clip_volume_witness :
  (((- 0.5 <= 0.5 <= 0.5)%R /\ (- 0.5 <= 0.5 <= 0.5)%R) /\
   in_clip_volume (clip_position (Vec4 0.5 0.5 0 1))) /\
  (is_finite (spin_angle seconds_3_6) = true /\
   Forall (fun v => in_clip_volume (mul_mat_vec (frame_trans seconds_3_6) v))
          (positions vertices)).
Proof.
  assert (H : (- 0.5 <= 0.5 <= 0.5)%R) by lra.
  split.
  - split; [split; exact H|].
    exact (proj1 (proj1 quad_is_inside_the_clip_volume _ _ H H)).
  - split; [reflexivity|].
    exact (proj2 (proj2 (proj2 (proj2 quad_is_inside_the_clip_volume)))
             seconds_3_6 eq_refl).
Defined.

End Extra.
